(** * SPH momentum formulations (Monaghan, Adami)

    A shallow embedding of the pairwise particle-interaction kernel
    [ParticleInteraction::SPHMomentumFormulationMonaghan] and
    [ParticleInteraction::SPHMomentumFormulationAdami].

    The C++ code computes on [double].  The operations are embedded once,
    over an abstract scalar type carrying the arithmetic the code uses, and
    instantiated twice: with binary64 floats (the code as it runs, used to
    evaluate concrete calls) and with the real numbers (exact arithmetic,
    used for the algebraic properties).  Properties that only depend on the
    control flow are proved for every scalar type, hence for both; what
    binary64 itself does is proved from the specification of the float
    operations in the standard library.

    Output pointers ([double*], possibly null) are modelled as optional
    buffers: [None] is the null pointer, [Some v] a caller-owned buffer
    holding [v].  The buffers of one call are taken to be pairwise distinct
    and distinct from the read-only inputs, as the callers of the kernel
    supply them. *)

From Stdlib Require Import Bool ZArith QArith List Reals Lra String Floats.
Import ListNotations.

(** ** Scalars *)

(** The floating-point literals that occur in the source. *)
Inductive Literal : Type :=
| Lit_0_0 | Lit_0_5 | Lit_1_0 | Lit_2_0 | Lit_3_0 | Lit_5_0.

(** The arithmetic of [double] that the kernel uses: literals, the four
    operations, unary minus and the strict comparison. *)
Class Scalar (T : Type) : Type := {
  lit  : Literal -> T;
  sadd : T -> T -> T;
  ssub : T -> T -> T;
  smul : T -> T -> T;
  sdiv : T -> T -> T;
  sneg : T -> T;
  sltb : T -> T -> bool
}.

Declare Scope scalar_scope.
Delimit Scope scalar_scope with sc.
Infix "+" := sadd : scalar_scope.
Infix "-" := ssub : scalar_scope.
Infix "*" := smul : scalar_scope.
Infix "/" := sdiv : scalar_scope.
Notation "- x" := (sneg x) : scalar_scope.
Notation "x <? y" := (sltb x y) : scalar_scope.
Notation "x >? y" := (sltb y x) : scalar_scope.

(** Binary64, the type the code runs on. *)
#[export] Instance float_Scalar : Scalar float := {
  lit l := match l with
           | Lit_0_0 => 0%float | Lit_0_5 => 0.5%float | Lit_1_0 => 1%float
           | Lit_2_0 => 2%float | Lit_3_0 => 3%float | Lit_5_0 => 5%float
           end;
  sadd := PrimFloat.add;
  ssub := PrimFloat.sub;
  smul := PrimFloat.mul;
  sdiv := PrimFloat.div;
  sneg := PrimFloat.opp;
  sltb := PrimFloat.ltb
}.

Definition Rltb (x y : R) : bool := if Rlt_dec x y then true else false.

(** Exact arithmetic. *)
#[export] Instance R_Scalar : Scalar R := {
  lit l := match l with
           | Lit_0_0 => 0%R | Lit_0_5 => (1 / 2)%R | Lit_1_0 => 1%R
           | Lit_2_0 => 2%R | Lit_3_0 => 3%R | Lit_5_0 => 5%R
           end;
  sadd := Rplus;
  ssub := Rminus;
  smul := Rmult;
  sdiv := Rdiv;
  sneg := Ropp;
  sltb := Rltb
}.

(** ** Three-component vectors and the helpers of [ParticleInteraction::Utils] *)

Record Vec3 (T : Type) : Type := mkVec3 { vx : T; vy : T; vz : T }.

Arguments mkVec3 {T} _ _ _.
Arguments vx {T} _.
Arguments vy {T} _.
Arguments vz {T} _.

Module Utils.
Section Helpers.
Context {T : Type} {S : Scalar T}.
Local Open Scope scalar_scope.

(** Modelled from the spec: [Utils::pow<2>] of 4C_particle_interaction_utils.hpp,
    the square of its argument ("density squared", "(m/rho) squared"). *)
Definition pow2 (x : T) : T := x * x.

(** Modelled from the spec: [Utils::vec_set(c, a)] of
    4C_particle_interaction_utils.hpp, which copies [a] into [c]; the result
    is the new content of [c], whatever [c] held before. *)
Definition vec_set (a : Vec3 T) : Vec3 T := a.

(** Modelled from the spec: [Utils::vec_sub(c, a)] of
    4C_particle_interaction_utils.hpp, the componentwise [c -= a]. *)
Definition vec_sub (c a : Vec3 T) : Vec3 T :=
  mkVec3 (vx c - vx a) (vy c - vy a) (vz c - vz a).

(** Modelled from the spec: [Utils::vec_add_scale(c, fac, a)] of
    4C_particle_interaction_utils.hpp, the componentwise [c += fac * a]
    by which every operation adds into an accumulator. *)
Definition vec_add_scale (c : Vec3 T) (fac : T) (a : Vec3 T) : Vec3 T :=
  mkVec3 (vx c + fac * vx a) (vy c + fac * vy a) (vz c + fac * vz a).

(** Modelled from the spec: [Utils::vec_dot(a, b)] of
    4C_particle_interaction_utils.hpp, the scalar product. *)
Definition vec_dot (a b : Vec3 T) : T :=
  vx a * vx b + vy a * vy b + vz a * vz b.

End Helpers.
End Utils.

(** ** Output buffers and the effects of an operation *)

(** The two output pointers of an operation: [acc_i]/[acc_j] or
    [mod_acc_i]/[mod_acc_j]. *)
Record Out (T : Type) : Type := mkOut {
  out_i : option (Vec3 T);
  out_j : option (Vec3 T)
}.

Arguments mkOut {T} _ _.
Arguments out_i {T} _.
Arguments out_j {T} _.

(** How a call ends: it returns, or [FOUR_C_THROW] raised an exception. *)
Inductive Outcome (A : Type) : Type :=
| Returned (a : A)
| Thrown (what : string).

Arguments Returned {A} _.
Arguments Thrown {A} _.

(** A procedure reads and writes the output buffers and may throw; the
    buffers it leaves behind are those at the point where it stopped. *)
Definition Proc (T A : Type) : Type := Out T -> Outcome A * Out T.

Definition ret {T A} (a : A) : Proc T A := fun o => (Returned a, o).

Definition bind {T A B} (c : Proc T A) (k : A -> Proc T B) : Proc T B :=
  fun o => match c o with
           | (Returned a, o') => k a o'
           | (Thrown w, o') => (Thrown w, o')
           end.

(** [FOUR_C_THROW(what)] *)
Definition FOUR_C_THROW {T A} (what : string) : Proc T A :=
  fun o => (Thrown what, o).

(** [if (acc_i) f(acc_i)]: the buffer behind the first pointer is updated
    when the pointer is not null. *)
Definition if_i {T} (f : Vec3 T -> Vec3 T) : Proc T unit :=
  fun o => (Returned tt, mkOut (option_map f (out_i o)) (out_j o)).

(** [if (acc_j) f(acc_j)] *)
Definition if_j {T} (f : Vec3 T -> Vec3 T) : Proc T unit :=
  fun o => (Returned tt, mkOut (out_i o) (option_map f (out_j o))).

Notation "c1 ;; c2" := (bind c1 (fun _ => c2))
  (at level 61, right associativity).

(** The scalar outputs of [specific_coefficient]. *)
Record Coeff (T : Type) : Type := mkCoeff {
  speccoeff_ij : option T;
  speccoeff_ji : option T
}.

Arguments mkCoeff {T} _ _.
Arguments speccoeff_ij {T} _.
Arguments speccoeff_ji {T} _.

(** [if (p) p[0] = v]: a scalar output is overwritten when its pointer is
    not null. *)
Definition store {T} (p : option T) (v : T) : option T :=
  match p with
  | Some _ => Some v
  | None => None
  end.

(** ** The Monaghan formulation *)

Module Monaghan.
Section Ops.
Context {T : Type} {S : Scalar T}.
Local Open Scope bool_scope.
Local Open Scope scalar_scope.
Import Utils.

Definition specific_coefficient (dens_i dens_j mass_i mass_j dWdrij dWdrji : T)
    (out : Coeff T) : Coeff T :=
  let out := mkCoeff (store (speccoeff_ij out) (dWdrij * mass_j))
                     (speccoeff_ji out) in
  mkCoeff (speccoeff_ij out) (store (speccoeff_ji out) (dWdrji * mass_i)).

Definition pressure_gradient (dens_i dens_j press_i press_j speccoeff_ij
    speccoeff_ji : T) (e_ij : Vec3 T) : Proc T unit :=
  let fac := press_i / pow2 dens_i + press_j / pow2 dens_j in
  if_i (fun acc_i => vec_add_scale acc_i (- speccoeff_ij * fac) e_ij) ;;
  if_j (fun acc_j => vec_add_scale acc_j (speccoeff_ji * fac) e_ij).

Definition shear_forces (dens_i dens_j : T) (vel_i vel_j : Vec3 T)
    (kernelfac visc_i visc_j bulk_visc_i bulk_visc_j abs_rij speccoeff_ij
     speccoeff_ji : T) (e_ij : Vec3 T) : Proc T unit :=
  let scaled_viscosity :=
    if (visc_i >? lit Lit_0_0) && (visc_j >? lit Lit_0_0)
    then lit Lit_2_0 * visc_i * visc_j / (lit Lit_3_0 * (visc_i + visc_j))
    else lit Lit_0_0 in
  let bulk_viscosity :=
    if (bulk_visc_i >? lit Lit_0_0) && (bulk_visc_j >? lit Lit_0_0)
    then lit Lit_2_0 * bulk_visc_i * bulk_visc_j / (bulk_visc_i + bulk_visc_j)
    else lit Lit_0_0 in
  let convection_coeff := kernelfac * (bulk_viscosity + scaled_viscosity) in
  let diffusion_coeff := lit Lit_5_0 * scaled_viscosity - bulk_viscosity in
  (if diffusion_coeff <? lit Lit_0_0
   then FOUR_C_THROW "diffusion coefficient is negative!"
   else ret tt) ;;
  let vel_ij := vec_sub (vec_set vel_i) vel_j in
  let inv_densi_densj_absdist := lit Lit_1_0 / (dens_i * dens_j * abs_rij) in
  let fac_diff := diffusion_coeff * inv_densi_densj_absdist in
  if_i (fun acc_i => vec_add_scale acc_i (speccoeff_ij * fac_diff) vel_ij) ;;
  if_j (fun acc_j => vec_add_scale acc_j (- speccoeff_ji * fac_diff) vel_ij) ;;
  let fac_conv :=
    convection_coeff * vec_dot vel_ij e_ij * inv_densi_densj_absdist in
  if_i (fun acc_i => vec_add_scale acc_i (speccoeff_ij * fac_conv) e_ij) ;;
  if_j (fun acc_j => vec_add_scale acc_j (- speccoeff_ji * fac_conv) e_ij).

Definition standard_background_pressure (dens_i dens_j bg_press_i bg_press_j
    speccoeff_ij speccoeff_ji : T) (e_ij : Vec3 T) : Proc T unit :=
  let fac := lit Lit_1_0 / pow2 dens_i + lit Lit_1_0 / pow2 dens_j in
  if_i (fun mod_acc_i =>
          vec_add_scale mod_acc_i (- speccoeff_ij * bg_press_i * fac) e_ij) ;;
  if_j (fun mod_acc_j =>
          vec_add_scale mod_acc_j (speccoeff_ji * bg_press_j * fac) e_ij).

Definition generalized_background_pressure (dens_i dens_j mass_i mass_j
    mod_bg_press_i mod_bg_press_j mod_dWdrij mod_dWdrji : T) (e_ij : Vec3 T)
    : Proc T unit :=
  if_i (fun mod_acc_i =>
          vec_add_scale mod_acc_i
            (- mod_bg_press_i * (mass_j / pow2 dens_i) * mod_dWdrij) e_ij) ;;
  if_j (fun mod_acc_j =>
          vec_add_scale mod_acc_j
            (mod_bg_press_j * (mass_i / pow2 dens_j) * mod_dWdrji) e_ij).

Definition modified_velocity_contribution (dens_i dens_j : T)
    (vel_i vel_j : Vec3 T) (mod_vel_i mod_vel_j : option (Vec3 T))
    (speccoeff_ij speccoeff_ji : T) (e_ij : Vec3 T) : Proc T unit :=
  let A_ij_e_ij := mkVec3 (lit Lit_0_0) (lit Lit_0_0) (lit Lit_0_0) in
  let A_ij_e_ij :=
    match mod_vel_i with
    | Some mod_vel_i =>
        let modvel_ii := vec_sub (vec_set mod_vel_i) vel_i in
        vec_add_scale A_ij_e_ij (vec_dot modvel_ii e_ij / dens_i) vel_i
    | None => A_ij_e_ij
    end in
  let A_ij_e_ij :=
    match mod_vel_j with
    | Some mod_vel_j =>
        let modvel_jj := vec_sub (vec_set mod_vel_j) vel_j in
        vec_add_scale A_ij_e_ij (vec_dot modvel_jj e_ij / dens_j) vel_j
    | None => A_ij_e_ij
    end in
  if_i (fun acc_i => vec_add_scale acc_i speccoeff_ij A_ij_e_ij) ;;
  if_j (fun acc_j => vec_add_scale acc_j (- speccoeff_ji) A_ij_e_ij).

End Ops.
End Monaghan.

(** ** The Adami formulation *)

Module Adami.
Section Ops.
Context {T : Type} {S : Scalar T}.
Local Open Scope bool_scope.
Local Open Scope scalar_scope.
Import Utils.

Definition specific_coefficient (dens_i dens_j mass_i mass_j dWdrij dWdrji : T)
    (out : Coeff T) : Coeff T :=
  let fac := pow2 (mass_i / dens_i) + pow2 (mass_j / dens_j) in
  let out := mkCoeff (store (speccoeff_ij out) (fac * (dWdrij / mass_i)))
                     (speccoeff_ji out) in
  mkCoeff (speccoeff_ij out) (store (speccoeff_ji out) (fac * (dWdrji / mass_j))).

Definition pressure_gradient (dens_i dens_j press_i press_j speccoeff_ij
    speccoeff_ji : T) (e_ij : Vec3 T) : Proc T unit :=
  let fac := (dens_i * press_j + dens_j * press_i) / (dens_i + dens_j) in
  if_i (fun acc_i => vec_add_scale acc_i (- speccoeff_ij * fac) e_ij) ;;
  if_j (fun acc_j => vec_add_scale acc_j (speccoeff_ji * fac) e_ij).

Definition shear_forces (dens_i dens_j : T) (vel_i vel_j : Vec3 T)
    (kernelfac visc_i visc_j bulk_visc_i bulk_visc_j abs_rij speccoeff_ij
     speccoeff_ji : T) (e_ij : Vec3 T) : Proc T unit :=
  if (visc_i >? lit Lit_0_0) && (visc_j >? lit Lit_0_0)
  then
    let viscosity := lit Lit_2_0 * visc_i * visc_j / (visc_i + visc_j) in
    let vel_ij := vec_sub (vec_set vel_i) vel_j in
    let fac := viscosity / abs_rij in
    if_i (fun acc_i => vec_add_scale acc_i (speccoeff_ij * fac) vel_ij) ;;
    if_j (fun acc_j => vec_add_scale acc_j (- speccoeff_ji * fac) vel_ij)
  else ret tt.

Definition standard_background_pressure (dens_i dens_j bg_press_i bg_press_j
    speccoeff_ij speccoeff_ji : T) (e_ij : Vec3 T) : Proc T unit :=
  if_i (fun mod_acc_i =>
          vec_add_scale mod_acc_i (- speccoeff_ij * bg_press_i) e_ij) ;;
  if_j (fun mod_acc_j =>
          vec_add_scale mod_acc_j (speccoeff_ji * bg_press_j) e_ij).

Definition generalized_background_pressure (dens_i dens_j mass_i mass_j
    mod_bg_press_i mod_bg_press_j mod_dWdrij mod_dWdrji : T) (e_ij : Vec3 T)
    : Proc T unit :=
  if_i (fun mod_acc_i =>
          vec_add_scale mod_acc_i
            (- (mod_bg_press_i * mass_i * mod_dWdrij) / pow2 dens_i) e_ij) ;;
  if_j (fun mod_acc_j =>
          vec_add_scale mod_acc_j
            ((mod_bg_press_j * mass_j * mod_dWdrji) / pow2 dens_j) e_ij).

Definition modified_velocity_contribution (dens_i dens_j : T)
    (vel_i vel_j : Vec3 T) (mod_vel_i mod_vel_j : option (Vec3 T))
    (speccoeff_ij speccoeff_ji : T) (e_ij : Vec3 T) : Proc T unit :=
  let A_ij_e_ij := mkVec3 (lit Lit_0_0) (lit Lit_0_0) (lit Lit_0_0) in
  let A_ij_e_ij :=
    match mod_vel_i with
    | Some mod_vel_i =>
        let modvel_ii := vec_sub (vec_set mod_vel_i) vel_i in
        vec_add_scale A_ij_e_ij
          (lit Lit_0_5 * dens_i * vec_dot modvel_ii e_ij) vel_i
    | None => A_ij_e_ij
    end in
  let A_ij_e_ij :=
    match mod_vel_j with
    | Some mod_vel_j =>
        let modvel_jj := vec_sub (vec_set mod_vel_j) vel_j in
        vec_add_scale A_ij_e_ij
          (lit Lit_0_5 * dens_j * vec_dot modvel_jj e_ij) vel_j
    | None => A_ij_e_ij
    end in
  if_i (fun acc_i => vec_add_scale acc_i speccoeff_ij A_ij_e_ij) ;;
  if_j (fun acc_j => vec_add_scale acc_j (- speccoeff_ji) A_ij_e_ij).

End Ops.
End Adami.

(** ** Reading the effect of a call *)

(** The buffers a call leaves behind and the way it ended. *)
Definition final {T A} (p : Proc T A) (o : Out T) : Out T := snd (p o).
Definition outcome {T A} (p : Proc T A) (o : Out T) : Outcome A := fst (p o).

(** Each side of a procedure is guarded on its own: a null pointer stays
    null, and neither the other buffer nor the way the call ends depends on
    whether a pointer is null. *)
Definition guards_each_side {T} (p : Proc T unit) : Prop :=
  forall (a_i a_j : option (Vec3 T)),
    out_i (final p (mkOut None a_j)) = None /\
    out_j (final p (mkOut None a_j)) = out_j (final p (mkOut a_i a_j)) /\
    outcome p (mkOut None a_j) = outcome p (mkOut a_i a_j) /\
    out_j (final p (mkOut a_i None)) = None /\
    out_i (final p (mkOut a_i None)) = out_i (final p (mkOut a_i a_j)) /\
    outcome p (mkOut a_i None) = outcome p (mkOut a_i a_j).

(** *** Vectors as values *)

Section Vectors.
Context {T : Type} {S : Scalar T}.
Local Open Scope scalar_scope.

Definition vplus (a b : Vec3 T) : Vec3 T :=
  mkVec3 (vx a + vx b) (vy a + vy b) (vz a + vz b).

Definition vminus (a b : Vec3 T) : Vec3 T :=
  mkVec3 (vx a - vx b) (vy a - vy b) (vz a - vz b).

Definition vscale (k : T) (a : Vec3 T) : Vec3 T :=
  mkVec3 (k * vx a) (k * vy a) (k * vz a).

Definition vopp (a : Vec3 T) : Vec3 T :=
  mkVec3 (- vx a) (- vy a) (- vz a).

Definition vzero : Vec3 T :=
  mkVec3 (lit Lit_0_0) (lit Lit_0_0) (lit Lit_0_0).

(** A procedure adds into the accumulators step by step: there are two
    lists of vectors, fixed before the accumulators are looked at, and every
    non-null accumulator ends up holding its initial content to which the
    vectors of its list were added one after the other. *)
Definition adds_stepwise (p : Proc T unit) : Prop :=
  exists ds_i ds_j : list (Vec3 T), forall o : Out T,
    final p o = mkOut (option_map (fold_left vplus ds_i) (out_i o))
                      (option_map (fold_left vplus ds_j) (out_j o)).

(** A procedure made of guarded [vec_add_scale] updates of the accumulators,
    which may stop early on a test of its inputs. *)
Inductive accumulates : Proc T unit -> Prop :=
| ac_ret : accumulates (ret tt)
| ac_throw what : accumulates (FOUR_C_THROW what)
| ac_if_i fac v :
    accumulates (if_i (fun acc => Utils.vec_add_scale acc fac v))
| ac_if_j fac v :
    accumulates (if_j (fun acc => Utils.vec_add_scale acc fac v))
| ac_seq p q : accumulates p -> accumulates q -> accumulates (p ;; q)
| ac_test (b : bool) p q : accumulates p -> accumulates q ->
    accumulates (if b then p else q).

(** A property of procedures holds of the five accumulating operations of
    both formulations, at all their inputs. *)
Definition every_accumulating_operation (P : Proc T unit -> Prop) : Prop :=
  (forall dens_i dens_j press_i press_j speccoeff_ij speccoeff_ji e_ij,
      P (Monaghan.pressure_gradient dens_i dens_j press_i press_j
           speccoeff_ij speccoeff_ji e_ij) /\
      P (Adami.pressure_gradient dens_i dens_j press_i press_j
           speccoeff_ij speccoeff_ji e_ij)) /\
  (forall dens_i dens_j vel_i vel_j kernelfac visc_i visc_j bulk_visc_i
          bulk_visc_j abs_rij speccoeff_ij speccoeff_ji e_ij,
      P (Monaghan.shear_forces dens_i dens_j vel_i vel_j kernelfac visc_i
           visc_j bulk_visc_i bulk_visc_j abs_rij speccoeff_ij speccoeff_ji
           e_ij) /\
      P (Adami.shear_forces dens_i dens_j vel_i vel_j kernelfac visc_i
           visc_j bulk_visc_i bulk_visc_j abs_rij speccoeff_ij speccoeff_ji
           e_ij)) /\
  (forall dens_i dens_j bg_press_i bg_press_j speccoeff_ij speccoeff_ji e_ij,
      P (Monaghan.standard_background_pressure dens_i dens_j bg_press_i
           bg_press_j speccoeff_ij speccoeff_ji e_ij) /\
      P (Adami.standard_background_pressure dens_i dens_j bg_press_i
           bg_press_j speccoeff_ij speccoeff_ji e_ij)) /\
  (forall dens_i dens_j mass_i mass_j mod_bg_press_i mod_bg_press_j
          mod_dWdrij mod_dWdrji e_ij,
      P (Monaghan.generalized_background_pressure dens_i dens_j mass_i
           mass_j mod_bg_press_i mod_bg_press_j mod_dWdrij mod_dWdrji e_ij) /\
      P (Adami.generalized_background_pressure dens_i dens_j mass_i
           mass_j mod_bg_press_i mod_bg_press_j mod_dWdrij mod_dWdrji e_ij)) /\
  (forall dens_i dens_j vel_i vel_j mod_vel_i mod_vel_j speccoeff_ij
          speccoeff_ji e_ij,
      P (Monaghan.modified_velocity_contribution dens_i dens_j vel_i vel_j
           mod_vel_i mod_vel_j speccoeff_ij speccoeff_ji e_ij) /\
      P (Adami.modified_velocity_contribution dens_i dens_j vel_i vel_j
           mod_vel_i mod_vel_j speccoeff_ij speccoeff_ji e_ij)).

End Vectors.

(** *** Exact contributions *)

(** The vectors a call adds to two non-null accumulators holding [a_i] and
    [a_j]: final content minus initial content, on each side. *)
Definition added (p : Proc R unit) (a_i a_j : Vec3 R)
    : option (Vec3 R * Vec3 R) :=
  match final p (mkOut (Some a_i) (Some a_j)) with
  | mkOut (Some f_i) (Some f_j) => Some (vminus f_i a_i, vminus f_j a_j)
  | _ => None
  end.

(** A procedure only adds into the accumulators: there are two vectors,
    fixed before the accumulators are looked at, such that every non-null
    accumulator ends up holding its initial content plus its vector. *)
Definition adds_only (p : Proc R unit) : Prop :=
  exists d_i d_j : Vec3 R, forall o : Out R,
    final p o = mkOut (option_map (fun a0 => vplus a0 d_i) (out_i o))
                      (option_map (fun a0 => vplus a0 d_j) (out_j o)).

(** *** The pair in the other order *)

(** The two buffers exchanged: what the caller passes when it presents the
    pair as (j, i). *)
Definition swap_out {T} (o : Out T) : Out T := mkOut (out_j o) (out_i o).

Definition swap_coeff {T} (c : Coeff T) : Coeff T :=
  mkCoeff (speccoeff_ji c) (speccoeff_ij c).

(** [p'] does for the pair (j, i) what [p] does for the pair (i, j): run on
    the exchanged buffers it ends as [p] ends and each buffer holds what [p]
    leaves in it. *)
Definition same_for_swapped_pair {T} (p p' : Proc T unit) : Prop :=
  forall o : Out T, p' (swap_out o) = (outcome p o, swap_out (final p o)).

(** *** Linear momentum *)

(** The mass-weighted sum of the two vectors a call adds to the
    accelerations: the rate at which the call changes the linear momentum
    of the pair. *)
Definition momentum_added (mass_i mass_j : R) (p : Proc R unit)
    (a_i a_j : Vec3 R) : option (Vec3 R) :=
  match added p a_i a_j with
  | Some (d_i, d_j) => Some (vplus (vscale mass_i d_i) (vscale mass_j d_j))
  | None => None
  end.

(** The rate at which a call changes half the squared relative velocity
    [vel_i - vel_j]: the relative velocity times the difference of the two
    added accelerations. *)
Definition relative_power (vel_i vel_j : Vec3 R) (p : Proc R unit)
    (a_i a_j : Vec3 R) : option R :=
  match added p a_i a_j with
  | Some (d_i, d_j) =>
      Some (Utils.vec_dot (vminus vel_i vel_j) (vminus d_i d_j))
  | None => None
  end.

(** ** Runtime output parameters of the beam-to-beam potential

    [BeamInteraction::BeamToBeamPotentialRuntimeOutputParams]: a container
    that is filled by [init] from a parameter list and released for use by
    [setup]. *)

Module BeamToBeamPotentialRuntimeOutputParams.

(** An entry of a [Teuchos::ParameterList]: a value with its type.  The
    container reads [int] and [bool] entries; [StringEntry] stands for an
    entry of any other type. *)
Inductive ParameterEntry : Type :=
| IntEntry (v : Z)
| BoolEntry (v : bool)
| StringEntry (v : string).

Definition ParameterList : Type := list (string * ParameterEntry).

Fixpoint find_entry (name : string) (pl : ParameterList)
    : option ParameterEntry :=
  match pl with
  | [] => None
  | (n, e) :: rest => if String.eqb n name then Some e else find_entry name rest
  end.

(** [pl.get<int>(name)] of the Teuchos library: the value of the entry, an
    exception when there is no entry of that name or when the entry has
    another type. *)
Definition get_int (pl : ParameterList) (name : string) : Outcome Z :=
  match find_entry name pl with
  | Some (IntEntry v) => Returned v
  | Some _ => Thrown "Teuchos::Exceptions::InvalidParameterType"
  | None => Thrown "Teuchos::Exceptions::InvalidParameterName"
  end.

(** [pl.get<bool>(name)] *)
Definition get_bool (pl : ParameterList) (name : string) : Outcome bool :=
  match find_entry name pl with
  | Some (BoolEntry v) => Returned v
  | Some _ => Thrown "Teuchos::Exceptions::InvalidParameterType"
  | None => Thrown "Teuchos::Exceptions::InvalidParameterName"
  end.

(** The member variables; [every_iteration_] is the member of that name of
    [visualization_parameters_]. *)
Record State : Type := mkState {
  isinit_ : bool;
  issetup_ : bool;
  every_iteration_ : bool;
  output_interval_steps_ : Z;
  output_every_iteration_ : bool;
  output_forces_ : bool;
  output_moments_ : bool;
  write_force_moment_per_elepair_ : bool;
  output_uids_ : bool
}.

(** The object the constructor builds; the visualization parameters come
    from a factory, here through the one member that is used. *)
Definition constructed (factory_every_iteration : bool) : State :=
  mkState false false factory_every_iteration (-1)%Z false false false false
    false.

(** A member function reads and writes the member variables and may throw;
    the object is left as it was at the throw. *)
Definition Method (A : Type) : Type := State -> Outcome A * State.

Definition mret {A} (a : A) : Method A := fun s => (Returned a, s).

Definition mbind {A B} (c : Method A) (k : A -> Method B) : Method B :=
  fun s => match c s with
           | (Returned a, s') => k a s'
           | (Thrown w, s') => (Thrown w, s')
           end.

(** A call that returns a value or throws, without touching the object. *)
Definition call {A} (r : Outcome A) : Method A := fun s => (r, s).

(** An assignment to member variables. *)
Definition assign (f : State -> State) : Method unit :=
  fun s => (Returned tt, f s).

Declare Scope method_scope.
Notation "x <- c1 ;; c2" := (mbind c1 (fun x => c2))
  (at level 61, c1 at next level, right associativity) : method_scope.
Notation "c1 ;; c2" := (mbind c1 (fun _ => c2)) : method_scope.
Local Open Scope method_scope.

(** The two accessors are defined in the header of the class, which is not
    among the sources; they return the member, as those of the sibling
    container [Solid::TimeInt::ParamsRuntimeOutput] do in its header. *)
Definition is_init (s : State) : bool := isinit_ s.
Definition is_setup (s : State) : bool := issetup_ s.

Definition throw_error_if_not_init_and_setup : Method unit :=
  fun s =>
    if negb (is_init s) || negb (is_setup s)
    then (Thrown "Call init() and setup() first!", s)
    else (Returned tt, s).

Definition throw_error_if_not_init : Method unit :=
  fun s =>
    if negb (is_init s)
    then (Thrown "init() has not been called, yet!", s)
    else (Returned tt, s).

Definition init (pl : ParameterList) : Method unit :=
  assign (fun s => mkState (isinit_ s) false (every_iteration_ s)
                     (output_interval_steps_ s) (output_every_iteration_ s)
                     (output_forces_ s) (output_moments_ s)
                     (write_force_moment_per_elepair_ s) (output_uids_ s)) ;;
  v <- call (get_int pl "INTERVAL_STEPS") ;;
  assign (fun s => mkState (isinit_ s) (issetup_ s) (every_iteration_ s)
                     v (output_every_iteration_ s)
                     (output_forces_ s) (output_moments_ s)
                     (write_force_moment_per_elepair_ s) (output_uids_ s)) ;;
  v <- call (get_bool pl "EVERY_ITERATION") ;;
  assign (fun s => mkState (isinit_ s) (issetup_ s) (every_iteration_ s)
                     (output_interval_steps_ s) v
                     (output_forces_ s) (output_moments_ s)
                     (write_force_moment_per_elepair_ s) (output_uids_ s)) ;;
  assign (fun s => mkState (isinit_ s) (issetup_ s)
                     (output_every_iteration_ s)
                     (output_interval_steps_ s) (output_every_iteration_ s)
                     (output_forces_ s) (output_moments_ s)
                     (write_force_moment_per_elepair_ s) (output_uids_ s)) ;;
  v <- call (get_bool pl "FORCES") ;;
  assign (fun s => mkState (isinit_ s) (issetup_ s) (every_iteration_ s)
                     (output_interval_steps_ s) (output_every_iteration_ s)
                     v (output_moments_ s)
                     (write_force_moment_per_elepair_ s) (output_uids_ s)) ;;
  v <- call (get_bool pl "MOMENTS") ;;
  assign (fun s => mkState (isinit_ s) (issetup_ s) (every_iteration_ s)
                     (output_interval_steps_ s) (output_every_iteration_ s)
                     (output_forces_ s) v
                     (write_force_moment_per_elepair_ s) (output_uids_ s)) ;;
  v <- call (get_bool pl "WRITE_FORCE_MOMENT_PER_ELEMENTPAIR") ;;
  assign (fun s => mkState (isinit_ s) (issetup_ s) (every_iteration_ s)
                     (output_interval_steps_ s) (output_every_iteration_ s)
                     (output_forces_ s) (output_moments_ s)
                     v (output_uids_ s)) ;;
  v <- call (get_bool pl "WRITE_UIDS") ;;
  assign (fun s => mkState (isinit_ s) (issetup_ s) (every_iteration_ s)
                     (output_interval_steps_ s) (output_every_iteration_ s)
                     (output_forces_ s) (output_moments_ s)
                     (write_force_moment_per_elepair_ s) v) ;;
  assign (fun s => mkState true (issetup_ s) (every_iteration_ s)
                     (output_interval_steps_ s) (output_every_iteration_ s)
                     (output_forces_ s) (output_moments_ s)
                     (write_force_moment_per_elepair_ s) (output_uids_ s)).

Definition setup : Method unit :=
  throw_error_if_not_init ;;
  assign (fun s => mkState (isinit_ s) true (every_iteration_ s)
                     (output_interval_steps_ s) (output_every_iteration_ s)
                     (output_forces_ s) (output_moments_ s)
                     (write_force_moment_per_elepair_ s) (output_uids_ s)).

(** A parameter list holds everything [init] reads, with the right types. *)
Definition complete (pl : ParameterList) : Prop :=
  (exists v, get_int pl "INTERVAL_STEPS" = Returned v) /\
  (exists v, get_bool pl "EVERY_ITERATION" = Returned v) /\
  (exists v, get_bool pl "FORCES" = Returned v) /\
  (exists v, get_bool pl "MOMENTS" = Returned v) /\
  (exists v, get_bool pl "WRITE_FORCE_MOMENT_PER_ELEMENTPAIR" = Returned v) /\
  (exists v, get_bool pl "WRITE_UIDS" = Returned v).

(** The order of the two phases: an object that is set up is initialised. *)
Definition setup_implies_init (s : State) : Prop :=
  issetup_ s = true -> isinit_ s = true.

End BeamToBeamPotentialRuntimeOutputParams.

(** *** Binary64 numbers

    What the code computes is read through the specification of binary64
    of the standard library: [Prim2SF] gives the sign, mantissa and exponent
    of a float. *)

(** The exact value of a float that is a number, as a rational. *)
Definition float_value (x : float) : option Q :=
  match Prim2SF x with
  | S754_zero _ => Some (inject_Z 0)
  | S754_finite s m e =>
      let v := match e with
               | Zneg p => Qmake (Zpos m) (2 ^ p)%positive
               | _ => inject_Z (Zpos m * 2 ^ e)
               end in
      Some (if s then Qopp v else v)
  | _ => None
  end.

(** Neither an infinity nor not-a-number. *)
Definition finite (x : float) : bool :=
  match Prim2SF x with
  | S754_zero _ | S754_finite _ _ _ => true
  | _ => false
  end.

(** One of the two zeros, [+0.0] and [-0.0]. *)
Definition zero (x : float) : bool :=
  match Prim2SF x with
  | S754_zero _ => true
  | _ => false
  end.

(** The same float, but for the sign of a zero. *)
Definition same_number (x y : float) : Prop :=
  x = y \/ (zero x = true /\ zero y = true).

Definition same_vector (u v : Vec3 float) : Prop :=
  same_number (vx u) (vx v) /\ same_number (vy u) (vy v) /\
  same_number (vz u) (vz v).

Definition same_buffer (a b : option (Vec3 float)) : Prop :=
  match a, b with
  | Some u, Some v => same_vector u v
  | None, None => True
  | _, _ => False
  end.

Definition same_contents (o o' : Out float) : Prop :=
  same_buffer (out_i o) (out_i o') /\ same_buffer (out_j o) (out_j o').

Definition finite_vector (v : Vec3 float) : bool :=
  finite (vx v) && finite (vy v) && finite (vz v).

(** *** Additions, counted *)




Create HintDb sph.
#[local] Hint Constructors accumulates : sph.

(** ** The shape of the accumulating operations *)

Section Shape.
Context {T : Type} {S : Scalar T}.

(** What a procedure made of guarded updates does: the way it ends is fixed
    by its inputs, and each buffer receives the vectors of a list of its
    own. *)
Lemma accumulates_steps (p : Proc T unit) :
  accumulates p ->
  exists (r : Outcome unit) (ds_i ds_j : list (Vec3 T)), forall o : Out T,
    p o = (r, mkOut (option_map (fold_left vplus ds_i) (out_i o))
                    (option_map (fold_left vplus ds_j) (out_j o))).
Proof.
  induction 1 as [ | what | fac v | fac v
                 | p q _ [rp [dpi [dpj Hp]]] _ [rq [dqi [dqj Hq]]]
                 | b p q _ IHp _ IHq ].
  - exists (Returned tt), [], []. intros [[a|] [b|]]; reflexivity.
  - exists (Thrown what), [], []. intros [[a|] [b|]]; reflexivity.
  - exists (Returned tt), [vscale fac v], [].
    intros [[a|] [b|]]; reflexivity.
  - exists (Returned tt), [], [vscale fac v].
    intros [[a|] [b|]]; reflexivity.
  - destruct rp as [[]|what].
    + exists rq, (dpi ++ dqi), (dpj ++ dqj).
      intros o. unfold bind. rewrite Hp, Hq. cbn.
      destruct o as [[a|] [b|]]; cbn; rewrite ?fold_left_app; reflexivity.
    + exists (Thrown what), dpi, dpj.
      intros o. unfold bind. rewrite Hp. reflexivity.
  - destruct b; assumption.
Qed.

Lemma accumulates_guards_each_side (p : Proc T unit) :
  accumulates p -> guards_each_side p.
Proof.
  intros H. destruct (accumulates_steps p H) as [r [ds_i [ds_j Hp]]].
  intros a_i a_j. unfold final, outcome. rewrite !Hp. cbn.
  repeat split; reflexivity.
Qed.

Lemma accumulates_adds_stepwise (p : Proc T unit) :
  accumulates p -> adds_stepwise p.
Proof.
  intros H. destruct (accumulates_steps p H) as [r [ds_i [ds_j Hp]]].
  exists ds_i, ds_j. intros o. unfold final. rewrite Hp. reflexivity.
Qed.

Lemma every_accumulating_operation_impl (P Q : Proc T unit -> Prop) :
  (forall p, P p -> Q p) ->
  every_accumulating_operation P -> every_accumulating_operation Q.
Proof.
  intros HPQ (H1 & H2 & H3 & H4 & H5).
  repeat apply conj; intros; split; apply HPQ;
    first [ apply H1 | apply H2 | apply H3 | apply H4 | apply H5 ].
Qed.

(** The five accumulating operations of both formulations are sequences of
    guarded [vec_add_scale] updates, after a test of the inputs in the two
    [shear_forces]. *)
Lemma operations_accumulate : every_accumulating_operation accumulates.
Proof.
  repeat apply conj; intros; split;
    [ unfold Monaghan.pressure_gradient | unfold Adami.pressure_gradient
    | unfold Monaghan.shear_forces | unfold Adami.shear_forces
    | unfold Monaghan.standard_background_pressure
    | unfold Adami.standard_background_pressure
    | unfold Monaghan.generalized_background_pressure
    | unfold Adami.generalized_background_pressure
    | unfold Monaghan.modified_velocity_contribution
    | unfold Adami.modified_velocity_contribution ];
    cbv zeta; auto 12 with sph.
Qed.

(** Adami's [shear_forces] returns at once, the buffers untouched, when one
    of the two tests [visc > 0.0] fails. *)
Lemma adami_shear_forces_early_return
    (dens_i dens_j : T) (vel_i vel_j : Vec3 T)
    (kernelfac visc_i visc_j bulk_visc_i bulk_visc_j abs_rij speccoeff_ij
     speccoeff_ji : T) (e_ij : Vec3 T) (o : Out T) :
  sltb (lit Lit_0_0) visc_i = false \/ sltb (lit Lit_0_0) visc_j = false ->
  Adami.shear_forces dens_i dens_j vel_i vel_j kernelfac visc_i visc_j
    bulk_visc_i bulk_visc_j abs_rij speccoeff_ij speccoeff_ji e_ij o
  = (Returned tt, o).
Proof.
  intros [H | H]; unfold Adami.shear_forces; rewrite H;
    rewrite ?andb_false_r; reflexivity.
Qed.

End Shape.

(** ** Null output pointers *)

(** C10: [specific_coefficient] guards its two scalar outputs one by one, in
    both formulations and whatever the scalar type: a null [speccoeff_ij]
    stays null while [speccoeff_ji] receives the value it receives in any
    other call with the same inputs, and the other way round. *)
Theorem specific_coefficient_guards_each_output :
  forall (T : Type) (S : Scalar T)
         (dens_i dens_j mass_i mass_j dWdrij dWdrji : T) (p q : option T),
    (speccoeff_ij (Monaghan.specific_coefficient dens_i dens_j mass_i mass_j
                     dWdrij dWdrji (mkCoeff None q)) = None /\
     speccoeff_ji (Monaghan.specific_coefficient dens_i dens_j mass_i mass_j
                     dWdrij dWdrji (mkCoeff None q))
       = store q (smul dWdrji mass_i) /\
     speccoeff_ji (Monaghan.specific_coefficient dens_i dens_j mass_i mass_j
                     dWdrij dWdrji (mkCoeff p q))
       = store q (smul dWdrji mass_i) /\
     speccoeff_ji (Monaghan.specific_coefficient dens_i dens_j mass_i mass_j
                     dWdrij dWdrji (mkCoeff p None)) = None /\
     speccoeff_ij (Monaghan.specific_coefficient dens_i dens_j mass_i mass_j
                     dWdrij dWdrji (mkCoeff p None))
       = store p (smul dWdrij mass_j) /\
     speccoeff_ij (Monaghan.specific_coefficient dens_i dens_j mass_i mass_j
                     dWdrij dWdrji (mkCoeff p q))
       = store p (smul dWdrij mass_j))
    /\
    (let fac := sadd (Utils.pow2 (sdiv mass_i dens_i))
                     (Utils.pow2 (sdiv mass_j dens_j)) in
     speccoeff_ij (Adami.specific_coefficient dens_i dens_j mass_i mass_j
                     dWdrij dWdrji (mkCoeff None q)) = None /\
     speccoeff_ji (Adami.specific_coefficient dens_i dens_j mass_i mass_j
                     dWdrij dWdrji (mkCoeff None q))
       = store q (smul fac (sdiv dWdrji mass_j)) /\
     speccoeff_ji (Adami.specific_coefficient dens_i dens_j mass_i mass_j
                     dWdrij dWdrji (mkCoeff p q))
       = store q (smul fac (sdiv dWdrji mass_j)) /\
     speccoeff_ji (Adami.specific_coefficient dens_i dens_j mass_i mass_j
                     dWdrij dWdrji (mkCoeff p None)) = None /\
     speccoeff_ij (Adami.specific_coefficient dens_i dens_j mass_i mass_j
                     dWdrij dWdrji (mkCoeff p None))
       = store p (smul fac (sdiv dWdrij mass_i)) /\
     speccoeff_ij (Adami.specific_coefficient dens_i dens_j mass_i mass_j
                     dWdrij dWdrji (mkCoeff p q))
       = store p (smul fac (sdiv dWdrij mass_i))).
Proof.
  intros. split; cbv zeta; repeat split; reflexivity.
Qed.

(** C4: in each of the five accumulating operations of both formulations,
    whatever the scalar type, a null accumulator pointer is left null, and
    the content of the other accumulator and the way the call ends are the
    same as when the pointer is not null.  ([specific_coefficient], the sixth
    operation, has no vector output.) *)
Theorem null_accumulator_is_skipped_independently :
  forall (T : Type) (S : Scalar T),
    every_accumulating_operation (T := T) guards_each_side.
Proof.
  intros T S.
  apply (every_accumulating_operation_impl accumulates).
  - apply accumulates_guards_each_side.
  - apply operations_accumulate.
Qed.

(** Whatever the scalar type, binary64 included, the additions of one call
    into an accumulator are carried out one after the other, each of a
    vector fixed by the inputs; [shear_forces] of Monaghan adds twice to each
    accumulator. *)
Lemma operations_add_stepwise :
  forall (T : Type) (S : Scalar T),
    every_accumulating_operation (T := T) adds_stepwise.
Proof.
  intros T S.
  apply (every_accumulating_operation_impl accumulates).
  - apply accumulates_adds_stepwise.
  - apply operations_accumulate.
Qed.

(** ** Exact arithmetic: tactics *)

Lemma Rltb_true (x y : R) : (x < y)%R -> Rltb x y = true.
Proof. intros H. unfold Rltb. destruct (Rlt_dec x y); [reflexivity | contradiction]. Qed.

Lemma Rltb_false (x y : R) : (y <= x)%R -> Rltb x y = false.
Proof. intros H. unfold Rltb. destruct (Rlt_dec x y); [lra | reflexivity]. Qed.

Lemma mkVec3_eq {T} (a b c a' b' c' : T) :
  a = a' -> b = b' -> c = c' -> mkVec3 a b c = mkVec3 a' b' c'.
Proof. intros; subst; reflexivity. Qed.

(** Unfold the operations down to the arithmetic of the reals. *)
Ltac to_reals :=
  cbv [Monaghan.specific_coefficient Monaghan.pressure_gradient
       Monaghan.shear_forces Monaghan.standard_background_pressure
       Monaghan.generalized_background_pressure
       Monaghan.modified_velocity_contribution
       Adami.specific_coefficient Adami.pressure_gradient
       Adami.shear_forces Adami.standard_background_pressure
       Adami.generalized_background_pressure
       Adami.modified_velocity_contribution
       added adds_only final outcome bind ret FOUR_C_THROW if_i if_j store
       Utils.pow2 Utils.vec_set Utils.vec_sub Utils.vec_add_scale
       Utils.vec_dot vplus vminus vscale vopp vzero
       sadd ssub smul sdiv sneg sltb lit R_Scalar
       option_map out_i out_j speccoeff_ij speccoeff_ji vx vy vz fst snd
       andb].

(** Equal buffers, component by component. *)
Ltac by_components :=
  repeat match goal with
         | |- (_, _) = (_, _) => apply f_equal2
         | |- mkOut _ _ = mkOut _ _ => apply f_equal2
         | |- mkCoeff _ _ = mkCoeff _ _ => apply f_equal2
         | |- Some _ = Some _ => apply f_equal
         | |- mkVec3 _ _ _ = mkVec3 _ _ _ => apply mkVec3_eq
         end;
  try reflexivity.

Lemma fold_left_vplus (ds : list (Vec3 R)) (a : Vec3 R) :
  fold_left vplus ds a = vplus a (fold_left vplus ds vzero).
Proof.
  revert a. induction ds as [ | d ds IH ]; intros [a1 a2 a3].
  - cbn. to_reals. by_components; ring.
  - cbn [fold_left]. rewrite IH. rewrite (IH (vplus vzero d)).
    destruct d as [d1 d2 d3].
    destruct (fold_left vplus ds vzero) as [s1 s2 s3].
    to_reals. by_components; ring.
Qed.


(** ** The specific coefficient *)

(** C8: Adami's [specific_coefficient] at [dens_i = dens_j = 2.0],
    [mass_i = mass_j = 1.0], [dWdrij = dWdrji = 1.0] with both output
    pointers non-null writes 0.5 to both, in binary64 as the code computes
    it and in exact arithmetic. *)
Theorem adami_specific_coefficient_scenario :
  (forall old_ij old_ji : float,
      Adami.specific_coefficient 2%float 2%float 1%float 1%float 1%float
        1%float (mkCoeff (Some old_ij) (Some old_ji))
      = mkCoeff (Some 0.5%float) (Some 0.5%float)) /\
  (forall old_ij old_ji : R,
      Adami.specific_coefficient 2%R 2%R 1%R 1%R 1%R 1%R
        (mkCoeff (Some old_ij) (Some old_ji))
      = mkCoeff (Some (1 / 2)%R) (Some (1 / 2)%R)).
Proof.
  split; intros old_ij old_ji.
  - vm_compute. reflexivity.
  - to_reals. by_components; field.
Qed.

(** The scenario of the Monaghan formulation: unit densities and masses and
    kernel gradients -1.0 give both coefficients -1.0. *)
Example monaghan_specific_coefficient_scenario :
  forall old_ij old_ji : float,
    Monaghan.specific_coefficient 1%float 1%float 1%float 1%float (-1)%float
      (-1)%float (mkCoeff (Some old_ij) (Some old_ji))
    = mkCoeff (Some (-1)%float) (Some (-1)%float).
Proof. intros old_ij old_ji. vm_compute. reflexivity. Qed.

(** ** The pressure gradient *)

(** Whatever the scalar type, [pressure_gradient] scales [e_ij] by
    [-speccoeff_ij * fac] on side i and by [speccoeff_ji * fac] on side j,
    with the one [fac] of its formulation. *)
Lemma pressure_gradient_updates :
  forall (T : Type) (S : Scalar T)
         (dens_i dens_j press_i press_j speccoeff_ij speccoeff_ji : T)
         (e_ij : Vec3 T) (o : Out T),
    let update fac :=
      mkOut (option_map (fun a => Utils.vec_add_scale a
                                    (smul (sneg speccoeff_ij) fac) e_ij)
                        (out_i o))
            (option_map (fun a => Utils.vec_add_scale a
                                    (smul speccoeff_ji fac) e_ij)
                        (out_j o)) in
    Monaghan.pressure_gradient dens_i dens_j press_i press_j speccoeff_ij
      speccoeff_ji e_ij o
    = (Returned tt,
       update (sadd (sdiv press_i (Utils.pow2 dens_i))
                    (sdiv press_j (Utils.pow2 dens_j)))) /\
    Adami.pressure_gradient dens_i dens_j press_i press_j speccoeff_ij
      speccoeff_ji e_ij o
    = (Returned tt,
       update (sdiv (sadd (smul dens_i press_j) (smul dens_j press_i))
                    (sadd dens_i dens_j))).
Proof.
  intros. split; reflexivity.
Qed.

(** Presenting the pair in the other order, with [e_ij] negated, gives each
    particle the contribution it gets in the first order. *)
Lemma pressure_gradient_swap :
  forall (dens_i dens_j press_i press_j speccoeff_ij speccoeff_ji : R)
         (e_ij : Vec3 R) (a_i a_j : option (Vec3 R)),
    (out_j (final (Monaghan.pressure_gradient dens_j dens_i press_j press_i
                     speccoeff_ji speccoeff_ij (vopp e_ij)) (mkOut a_j a_i))
     = out_i (final (Monaghan.pressure_gradient dens_i dens_j press_i press_j
                       speccoeff_ij speccoeff_ji e_ij) (mkOut a_i a_j)) /\
     out_i (final (Monaghan.pressure_gradient dens_j dens_i press_j press_i
                     speccoeff_ji speccoeff_ij (vopp e_ij)) (mkOut a_j a_i))
     = out_j (final (Monaghan.pressure_gradient dens_i dens_j press_i press_j
                       speccoeff_ij speccoeff_ji e_ij) (mkOut a_i a_j))) /\
    (out_j (final (Adami.pressure_gradient dens_j dens_i press_j press_i
                     speccoeff_ji speccoeff_ij (vopp e_ij)) (mkOut a_j a_i))
     = out_i (final (Adami.pressure_gradient dens_i dens_j press_i press_j
                       speccoeff_ij speccoeff_ji e_ij) (mkOut a_i a_j)) /\
     out_i (final (Adami.pressure_gradient dens_j dens_i press_j press_i
                     speccoeff_ji speccoeff_ij (vopp e_ij)) (mkOut a_j a_i))
     = out_j (final (Adami.pressure_gradient dens_i dens_j press_i press_j
                       speccoeff_ij speccoeff_ji e_ij) (mkOut a_i a_j))).
Proof.
  intros dens_i dens_j press_i press_j s_ij s_ji [e1 e2 e3] a_i a_j.
  assert (Hfac : ((dens_j * press_i + dens_i * press_j) / (dens_j + dens_i)
                  = (dens_i * press_j + dens_j * press_i)
                    / (dens_i + dens_j))%R).
  { replace (dens_j + dens_i)%R with (dens_i + dens_j)%R by ring.
    unfold Rdiv. ring. }
  destruct a_i as [[a1 a2 a3]|], a_j as [[b1 b2 b3]|];
    (split; split); to_reals; rewrite ?Hfac;
    by_components; unfold Rdiv; ring.
Qed.

(** C7: with positive densities, Adami's [pressure_gradient] scales [e_ij]
    by the inverse-density-weighted average of the two pressures,
    [(press_i/dens_i + press_j/dens_j) / (1/dens_i + 1/dens_j)], which is
    [(dens_i*press_j + dens_j*press_i) / (dens_i + dens_j)]; Monaghan's
    scales it by [press_i/dens_i^2 + press_j/dens_j^2]. *)
Theorem pressure_gradient_magnitude :
  forall (dens_i dens_j press_i press_j speccoeff_ij speccoeff_ji : R)
         (e_ij : Vec3 R) (o : Out R),
    (0 < dens_i)%R -> (0 < dens_j)%R ->
    let avg := ((press_i / dens_i + press_j / dens_j)
                / (1 / dens_i + 1 / dens_j))%R in
    let sum := (press_i / (dens_i * dens_i) + press_j / (dens_j * dens_j))%R in
    avg = ((dens_i * press_j + dens_j * press_i) / (dens_i + dens_j))%R /\
    Adami.pressure_gradient dens_i dens_j press_i press_j speccoeff_ij
      speccoeff_ji e_ij o
    = (Returned tt,
       mkOut (option_map (fun a => Utils.vec_add_scale a
                                     (- speccoeff_ij * avg)%R e_ij) (out_i o))
             (option_map (fun a => Utils.vec_add_scale a
                                     (speccoeff_ji * avg)%R e_ij) (out_j o)))
    /\
    Monaghan.pressure_gradient dens_i dens_j press_i press_j speccoeff_ij
      speccoeff_ji e_ij o
    = (Returned tt,
       mkOut (option_map (fun a => Utils.vec_add_scale a
                                     (- speccoeff_ij * sum)%R e_ij) (out_i o))
             (option_map (fun a => Utils.vec_add_scale a
                                     (speccoeff_ji * sum)%R e_ij) (out_j o))).
Proof.
  intros dens_i dens_j press_i press_j s_ij s_ji e_ij o Hi Hj avg sum.
  assert (Havg : avg = ((dens_i * press_j + dens_j * press_i)
                        / (dens_i + dens_j))%R).
  { unfold avg. field. repeat split; lra. }
  split; [exact Havg | split].
  - rewrite Havg. destruct o as [[a|] [b|]]; reflexivity.
  - destruct o as [[a|] [b|]]; reflexivity.
Qed.

Lemma pressure_gradient_magnitude_witness :
  (0 < 2)%R /\ (0 < 1)%R /\
  Adami.pressure_gradient 2%R 1%R 4%R 3%R 1%R 1%R (mkVec3 1 0 0)%R
    (mkOut (Some vzero) None)
  = (Returned tt,
     mkOut (Some (Utils.vec_add_scale vzero
                    (- 1 * ((4 / 2 + 3 / 1) / (1 / 2 + 1 / 1)))%R
                    (mkVec3 1 0 0)%R))
           None).
Proof.
  split; [lra | split; [lra | ]].
  apply (pressure_gradient_magnitude 2%R 1%R 4%R 3%R 1%R 1%R (mkVec3 1 0 0)%R
           (mkOut (Some vzero) None)); lra.
Defined.

(** C3: for two non-null accumulators, [pressure_gradient] adds
    [-speccoeff_ij * fac * e_ij] to [acc_i] and [speccoeff_ji * fac * e_ij]
    to [acc_j] with one scalar [fac], in both formulations.  So the two added
    vectors are opposite up to the two specific coefficients, and exactly
    opposite when the coefficients are equal. *)
Theorem pressure_gradient_action_reaction :
  forall (dens_i dens_j press_i press_j speccoeff_ij speccoeff_ji : R)
         (e_ij a_i a_j : Vec3 R),
    let fac_M := (press_i / (dens_i * dens_i)
                  + press_j / (dens_j * dens_j))%R in
    let fac_A := ((dens_i * press_j + dens_j * press_i)
                  / (dens_i + dens_j))%R in
    let d_i fac := vscale (- speccoeff_ij * fac)%R e_ij in
    let d_j fac := vscale (speccoeff_ji * fac)%R e_ij in
    (added (Monaghan.pressure_gradient dens_i dens_j press_i press_j
              speccoeff_ij speccoeff_ji e_ij) a_i a_j
       = Some (d_i fac_M, d_j fac_M) /\
     added (Adami.pressure_gradient dens_i dens_j press_i press_j
              speccoeff_ij speccoeff_ji e_ij) a_i a_j
       = Some (d_i fac_A, d_j fac_A)) /\
    (forall fac, vscale speccoeff_ji (d_i fac)
                 = vopp (vscale speccoeff_ij (d_j fac))) /\
    (added (Monaghan.pressure_gradient dens_i dens_j press_i press_j
              speccoeff_ij speccoeff_ij e_ij) a_i a_j
       = Some (d_i fac_M, vopp (d_i fac_M)) /\
     added (Adami.pressure_gradient dens_i dens_j press_i press_j
              speccoeff_ij speccoeff_ij e_ij) a_i a_j
       = Some (d_i fac_A, vopp (d_i fac_A))).
Proof.
  intros dens_i dens_j press_i press_j s_ij s_ji [e1 e2 e3] [a1 a2 a3]
         [b1 b2 b3] fac_M fac_A d_i d_j.
  subst fac_M fac_A d_i d_j.
  repeat split; intros; to_reals; by_components; ring.
Qed.

(** ** Accumulation *)


(** ** Shear forces *)

(** Settle the comparisons that linear arithmetic decides. *)
Ltac settle_tests :=
  repeat match goal with
         | |- context [Rltb ?x ?y] =>
             first [ rewrite (Rltb_true x y) by lra
                   | rewrite (Rltb_false x y) by lra ]
         end;
  cbv beta iota.

Lemma harmonic_nonneg (k a b : R) :
  (0 < k)%R -> (0 < a)%R -> (0 < b)%R ->
  (0 <= 2 * a * b / (k * (a + b)))%R.
Proof.
  intros Hk Ha Hb. apply Rlt_le, Rdiv_lt_0_compat; nra.
Qed.

(** In exact arithmetic Monaghan's [shear_forces] with positive viscosities
    and bulk viscosities such that [5 * scaled_viscosity < bulk_viscosity]
    throws, and the accumulators hold at the throw what they held at the
    call. *)
Lemma monaghan_shear_forces_rejects_negative_diffusion :
  forall (dens_i dens_j : R) (vel_i vel_j : Vec3 R)
         (kernelfac visc_i visc_j bulk_visc_i bulk_visc_j abs_rij speccoeff_ij
          speccoeff_ji : R) (e_ij : Vec3 R) (o : Out R),
    (0 < visc_i)%R -> (0 < visc_j)%R ->
    (0 < bulk_visc_i)%R -> (0 < bulk_visc_j)%R ->
    (5 * (2 * visc_i * visc_j / (3 * (visc_i + visc_j)))
     < 2 * bulk_visc_i * bulk_visc_j / (bulk_visc_i + bulk_visc_j))%R ->
    Monaghan.shear_forces dens_i dens_j vel_i vel_j kernelfac visc_i visc_j
      bulk_visc_i bulk_visc_j abs_rij speccoeff_ij speccoeff_ji e_ij o
    = (Thrown "diffusion coefficient is negative!", o).
Proof.
  intros dens_i dens_j vel_i vel_j kernelfac visc_i visc_j bulk_visc_i
         bulk_visc_j abs_rij s_ij s_ji e_ij o Hvi Hvj Hbi Hbj Hneg.
  to_reals. settle_tests. reflexivity.
Qed.

(** C9: Monaghan's [shear_forces] does not throw when one of the bulk
    viscosities is not positive, whatever the two viscosities: the bulk
    viscosity is then 0 and [5 * scaled_viscosity] is not negative. *)
Theorem monaghan_shear_forces_no_throw_without_bulk_viscosity :
  forall (dens_i dens_j : R) (vel_i vel_j : Vec3 R)
         (kernelfac visc_i visc_j bulk_visc_i bulk_visc_j abs_rij speccoeff_ij
          speccoeff_ji : R) (e_ij : Vec3 R) (o : Out R),
    (bulk_visc_i <= 0)%R \/ (bulk_visc_j <= 0)%R ->
    outcome (Monaghan.shear_forces dens_i dens_j vel_i vel_j kernelfac visc_i
               visc_j bulk_visc_i bulk_visc_j abs_rij speccoeff_ij
               speccoeff_ji e_ij) o
    = Returned tt.
Proof.
  intros dens_i dens_j vel_i vel_j kernelfac visc_i visc_j bulk_visc_i
         bulk_visc_j abs_rij s_ij s_ji e_ij o Hb.
  assert (Hbulk : (Rltb 0 bulk_visc_i && Rltb 0 bulk_visc_j)%bool = false).
  { destruct Hb as [Hb | Hb].
    - rewrite (Rltb_false 0 bulk_visc_i) by lra. reflexivity.
    - rewrite (Rltb_false 0 bulk_visc_j) by lra. apply andb_false_r. }
  unfold outcome, Monaghan.shear_forces, bind.
  cbv [sltb sadd ssub smul sdiv lit R_Scalar].
  rewrite Hbulk.
  destruct (Rlt_dec 0 visc_i) as [Hvi | Hvi];
    [ rewrite (Rltb_true 0 visc_i) by assumption
    | rewrite (Rltb_false 0 visc_i) by lra ];
    (destruct (Rlt_dec 0 visc_j) as [Hvj | Hvj];
     [ rewrite (Rltb_true 0 visc_j) by assumption
     | rewrite (Rltb_false 0 visc_j) by lra ]);
    cbv [andb].
  - pose proof (harmonic_nonneg 3 visc_i visc_j ltac:(lra) Hvi Hvj) as Hs.
    rewrite Rltb_false by lra. reflexivity.
  - rewrite Rltb_false by lra. reflexivity.
  - rewrite Rltb_false by lra. reflexivity.
  - rewrite Rltb_false by lra. reflexivity.
Qed.

Lemma monaghan_shear_forces_no_throw_without_bulk_viscosity_witness :
  ((0 <= 0)%R \/ (3 <= 0)%R) /\
  outcome (Monaghan.shear_forces 1%R 1%R (mkVec3 1 0 0)%R (mkVec3 0 0 0)%R
             1%R 2%R 5%R 0%R 3%R 1%R 1%R 1%R (mkVec3 1 0 0)%R)
    (mkOut (Some vzero) (Some vzero))
  = Returned tt.
Proof.
  split; [left; lra | ].
  apply monaghan_shear_forces_no_throw_without_bulk_viscosity. left; lra.
Defined.

(** In exact arithmetic [shear_forces] returns normally and leaves both
    accumulators as they were in the Adami formulation when a viscosity is
    not positive, and in the Monaghan formulation when both viscosities are 0
    and a bulk viscosity is not positive.  With both viscosities 0 and both
    bulk viscosities positive the Monaghan formulation throws, the
    accumulators being untouched. *)
Lemma shear_forces_without_viscosity :
  forall (dens_i dens_j : R) (vel_i vel_j : Vec3 R)
         (kernelfac visc_i visc_j bulk_visc_i bulk_visc_j abs_rij speccoeff_ij
          speccoeff_ji : R) (e_ij : Vec3 R) (o : Out R),
    ((visc_i <= 0)%R \/ (visc_j <= 0)%R ->
     Adami.shear_forces dens_i dens_j vel_i vel_j kernelfac visc_i visc_j
       bulk_visc_i bulk_visc_j abs_rij speccoeff_ij speccoeff_ji e_ij o
     = (Returned tt, o)) /\
    (visc_i = 0%R -> visc_j = 0%R ->
     (bulk_visc_i <= 0)%R \/ (bulk_visc_j <= 0)%R ->
     Monaghan.shear_forces dens_i dens_j vel_i vel_j kernelfac visc_i visc_j
       bulk_visc_i bulk_visc_j abs_rij speccoeff_ij speccoeff_ji e_ij o
     = (Returned tt, o)) /\
    (visc_i = 0%R -> visc_j = 0%R ->
     (0 < bulk_visc_i)%R -> (0 < bulk_visc_j)%R ->
     Monaghan.shear_forces dens_i dens_j vel_i vel_j kernelfac visc_i visc_j
       bulk_visc_i bulk_visc_j abs_rij speccoeff_ij speccoeff_ji e_ij o
     = (Thrown "diffusion coefficient is negative!", o)).
Proof.
  intros dens_i dens_j [u1 u2 u3] [w1 w2 w3] kernelfac visc_i visc_j
         bulk_visc_i bulk_visc_j abs_rij s_ij s_ji [e1 e2 e3] o.
  split; [ | split ].
  - intros Hv. apply adami_shear_forces_early_return.
    cbv [sltb lit R_Scalar].
    destruct Hv as [Hv | Hv]; [left | right]; apply Rltb_false; exact Hv.
  - intros Hvi Hvj Hb. subst visc_i visc_j.
    assert (Hbulk : (Rltb 0 bulk_visc_i && Rltb 0 bulk_visc_j)%bool = false).
    { destruct Hb as [Hb | Hb].
      - rewrite (Rltb_false 0 bulk_visc_i) by lra. reflexivity.
      - rewrite (Rltb_false 0 bulk_visc_j) by lra. apply andb_false_r. }
    unfold Monaghan.shear_forces. cbv [sltb lit R_Scalar].
    rewrite Hbulk. rewrite (Rltb_false 0 0) by lra.
    to_reals. settle_tests.
    destruct o as [[[a1 a2 a3]|] [[b1 b2 b3]|]];
      by_components; unfold Rdiv; ring.
  - intros Hvi Hvj Hbi Hbj. subst visc_i visc_j.
    assert (Hpos : (0 < 2 * bulk_visc_i * bulk_visc_j
                        / (bulk_visc_i + bulk_visc_j))%R).
    { apply Rdiv_lt_0_compat; nra. }
    to_reals. settle_tests. reflexivity.
Qed.

(** C1 fails as stated: Monaghan's [shear_forces] with both viscosities 0 and
    both bulk viscosities 1 throws, in exact arithmetic and in binary64. *)
Lemma shear_forces_zero_viscosity_counterexample :
  (Monaghan.shear_forces 1%R 1%R (mkVec3 1 0 0)%R (mkVec3 0 0 0)%R 1%R 0%R 0%R
     1%R 1%R 1%R 1%R 1%R (mkVec3 1 0 0)%R (mkOut (Some vzero) (Some vzero))
   = (Thrown "diffusion coefficient is negative!",
      mkOut (Some vzero) (Some vzero))) /\
  (Monaghan.shear_forces 1%float 1%float (mkVec3 1 0 0)%float
     (mkVec3 0 0 0)%float 1%float 0%float 0%float 1%float 1%float 1%float
     1%float 1%float (mkVec3 1 0 0)%float
     (mkOut (Some (mkVec3 0 0 0)%float) (Some (mkVec3 0 0 0)%float))
   = (Thrown "diffusion coefficient is negative!",
      mkOut (Some (mkVec3 0 0 0)%float) (Some (mkVec3 0 0 0)%float))) /\
  outcome (Monaghan.shear_forces 1%R 1%R (mkVec3 1 0 0)%R (mkVec3 0 0 0)%R
             1%R 0%R 0%R 1%R 1%R 1%R 1%R 1%R (mkVec3 1 0 0)%R)
    (mkOut (Some vzero) (Some vzero))
  <> Returned tt.
Proof.
  assert (H : Monaghan.shear_forces 1%R 1%R (mkVec3 1 0 0)%R (mkVec3 0 0 0)%R
                1%R 0%R 0%R 1%R 1%R 1%R 1%R 1%R (mkVec3 1 0 0)%R
                (mkOut (Some vzero) (Some vzero))
              = (Thrown "diffusion coefficient is negative!",
                 mkOut (Some vzero) (Some vzero))).
  { to_reals. settle_tests. reflexivity. }
  split; [exact H | split].
  - vm_compute. reflexivity.
  - unfold outcome. rewrite H. discriminate.
Qed.

(** ** The modified velocity contribution *)

(** C5, as the code has it: when [mod_vel_i] is [vel_i] the term of side i
    vanishes, so [modified_velocity_contribution] leaves the accumulators as
    the same call with a null [mod_vel_i] does; [acc_i] is left as it was when
    moreover [mod_vel_j] is null or is [vel_j].  Both formulations. *)
Theorem modified_velocity_contribution_unmodified_side :
  forall (dens_i dens_j : R) (vel_i vel_j : Vec3 R)
         (mod_vel_j : option (Vec3 R)) (speccoeff_ij speccoeff_ji : R)
         (e_ij : Vec3 R) (o : Out R),
    (final (Monaghan.modified_velocity_contribution dens_i dens_j vel_i vel_j
              (Some vel_i) mod_vel_j speccoeff_ij speccoeff_ji e_ij) o
     = final (Monaghan.modified_velocity_contribution dens_i dens_j vel_i
                vel_j None mod_vel_j speccoeff_ij speccoeff_ji e_ij) o /\
     out_i (final (Monaghan.modified_velocity_contribution dens_i dens_j vel_i
                     vel_j (Some vel_i) None speccoeff_ij speccoeff_ji e_ij) o)
     = out_i o /\
     out_i (final (Monaghan.modified_velocity_contribution dens_i dens_j vel_i
                     vel_j (Some vel_i) (Some vel_j) speccoeff_ij speccoeff_ji
                     e_ij) o)
     = out_i o) /\
    (final (Adami.modified_velocity_contribution dens_i dens_j vel_i vel_j
              (Some vel_i) mod_vel_j speccoeff_ij speccoeff_ji e_ij) o
     = final (Adami.modified_velocity_contribution dens_i dens_j vel_i
                vel_j None mod_vel_j speccoeff_ij speccoeff_ji e_ij) o /\
     out_i (final (Adami.modified_velocity_contribution dens_i dens_j vel_i
                     vel_j (Some vel_i) None speccoeff_ij speccoeff_ji e_ij) o)
     = out_i o /\
     out_i (final (Adami.modified_velocity_contribution dens_i dens_j vel_i
                     vel_j (Some vel_i) (Some vel_j) speccoeff_ij speccoeff_ji
                     e_ij) o)
     = out_i o).
Proof.
  intros dens_i dens_j [u1 u2 u3] [w1 w2 w3] mod_vel_j s_ij s_ji [e1 e2 e3]
         [[[a1 a2 a3]|] [[b1 b2 b3]|]];
    (split; (split; [ destruct mod_vel_j as [[m1 m2 m3]|] | split ]));
    to_reals; by_components; unfold Rdiv; ring.
Qed.

(** C5 fails as stated: with [mod_vel_i] equal to [vel_i] and [mod_vel_j]
    different from [vel_j] along [e_ij], [acc_i] receives the term of side j,
    in both formulations, in exact arithmetic and in binary64. *)
Lemma modified_velocity_contribution_counterexample :
  (out_i (final (Monaghan.modified_velocity_contribution 1%R 1%R
                   (mkVec3 1 0 0)%R (mkVec3 1 0 0)%R (Some (mkVec3 1 0 0)%R)
                   (Some (mkVec3 2 0 0)%R) 1%R 1%R (mkVec3 1 0 0)%R)
            (mkOut (Some vzero) None))
   = Some (mkVec3 1 0 0)%R /\
   out_i (final (Adami.modified_velocity_contribution 1%R 1%R
                   (mkVec3 1 0 0)%R (mkVec3 1 0 0)%R (Some (mkVec3 1 0 0)%R)
                   (Some (mkVec3 2 0 0)%R) 1%R 1%R (mkVec3 1 0 0)%R)
            (mkOut (Some vzero) None))
   = Some (mkVec3 (1 / 2) 0 0)%R) /\
  (out_i (final (Monaghan.modified_velocity_contribution 1%float 1%float
                   (mkVec3 1 0 0)%float (mkVec3 1 0 0)%float
                   (Some (mkVec3 1 0 0)%float) (Some (mkVec3 2 0 0)%float)
                   1%float 1%float (mkVec3 1 0 0)%float)
            (mkOut (Some (mkVec3 0 0 0)%float) None))
   = Some (mkVec3 1 0 0)%float /\
   out_i (final (Adami.modified_velocity_contribution 1%float 1%float
                   (mkVec3 1 0 0)%float (mkVec3 1 0 0)%float
                   (Some (mkVec3 1 0 0)%float) (Some (mkVec3 2 0 0)%float)
                   1%float 1%float (mkVec3 1 0 0)%float)
            (mkOut (Some (mkVec3 0 0 0)%float) None))
   = Some (mkVec3 0.5 0 0)%float) /\
  out_i (final (Monaghan.modified_velocity_contribution 1%R 1%R
                  (mkVec3 1 0 0)%R (mkVec3 1 0 0)%R (Some (mkVec3 1 0 0)%R)
                  (Some (mkVec3 2 0 0)%R) 1%R 1%R (mkVec3 1 0 0)%R)
           (mkOut (Some vzero) None))
  <> Some vzero.
Proof.
  assert (H : out_i (final (Monaghan.modified_velocity_contribution 1%R 1%R
                   (mkVec3 1 0 0)%R (mkVec3 1 0 0)%R (Some (mkVec3 1 0 0)%R)
                   (Some (mkVec3 2 0 0)%R) 1%R 1%R (mkVec3 1 0 0)%R)
            (mkOut (Some vzero) None))
              = Some (mkVec3 1 0 0)%R).
  { to_reals. by_components; field. }
  split; [split; [exact H | to_reals; by_components; field] | split].
  - split; vm_compute; reflexivity.
  - rewrite H. unfold vzero. intros E. injection E as E. lra.
Qed.

(** ** Binary64 evaluations

    The theorems above over the reals speak of exact arithmetic.  The calls
    below are evaluated on binary64 floats, as the code computes. *)

(** Monaghan's [shear_forces] without viscosity and without bulk viscosity
    on one side, at a regular pair: the accumulator keeps its content. *)
Example monaghan_shear_forces_inviscid_binary64 :
  Monaghan.shear_forces 1%float 1%float (mkVec3 1 2 3)%float
    (mkVec3 0 0 0)%float 1%float 0%float 0%float 0%float 1%float 1%float
    1%float 1%float (mkVec3 1 0 0)%float
    (mkOut (Some (mkVec3 7 7 7)%float) None)
  = (Returned tt, mkOut (Some (mkVec3 7 7 7)%float) None).
Proof. vm_compute. reflexivity. Qed.

(** At zero distance, which the callers exclude, the machine division
    yields an infinity and the accumulator becomes not-a-number, where exact
    arithmetic adds zero. *)
Example monaghan_shear_forces_zero_distance_binary64 :
  Monaghan.shear_forces 1%float 1%float (mkVec3 1 2 3)%float
    (mkVec3 0 0 0)%float 1%float 0%float 0%float 0%float 1%float 0%float
    1%float 1%float (mkVec3 1 0 0)%float
    (mkOut (Some (mkVec3 7 7 7)%float) None)
  = (Returned tt, mkOut (Some (mkVec3 nan nan nan)) None).
Proof. vm_compute. reflexivity. Qed.

(** Adami's [shear_forces] with a viscosity that is not positive, or not a
    number, returns at once. *)
Example adami_shear_forces_early_return_binary64 :
  Adami.shear_forces 1%float 1%float (mkVec3 1 2 3)%float
    (mkVec3 0 0 0)%float 1%float 2%float (-1)%float 1%float 1%float 1%float
    1%float 1%float (mkVec3 1 0 0)%float
    (mkOut (Some (mkVec3 7 7 7)%float) (Some (mkVec3 1 1 1)%float))
  = (Returned tt,
     mkOut (Some (mkVec3 7 7 7)%float) (Some (mkVec3 1 1 1)%float)) /\
  Adami.shear_forces 1%float 1%float (mkVec3 1 2 3)%float
    (mkVec3 0 0 0)%float 1%float nan 2%float 1%float 1%float 1%float
    1%float 1%float (mkVec3 1 0 0)%float
    (mkOut (Some (mkVec3 7 7 7)%float) (Some (mkVec3 1 1 1)%float))
  = (Returned tt,
     mkOut (Some (mkVec3 7 7 7)%float) (Some (mkVec3 1 1 1)%float)).
Proof. split; vm_compute; reflexivity. Qed.

(** ** Further properties of the kernel *)

Ltac to_reals_all :=
  cbv [same_for_swapped_pair swap_out swap_coeff momentum_added
       relative_power];
  to_reals.

Lemma harmonic_comm (k a b : R) :
  (2 * b * a / (k * (b + a)) = 2 * a * b / (k * (a + b)))%R.
Proof.
  replace (b + a)%R with (a + b)%R by ring. unfold Rdiv. ring.
Qed.

Lemma harmonic_comm1 (a b : R) :
  (2 * b * a / (b + a) = 2 * a * b / (a + b))%R.
Proof.
  replace (b + a)%R with (a + b)%R by ring. unfold Rdiv. ring.
Qed.

(** Split on every comparison left in the goal. *)
Ltac split_tests :=
  repeat match goal with
         | |- context [Rltb ?x ?y] => destruct (Rltb x y)
         end.

(** Each of the five accumulating operations of both formulations gives a
    particle the same contribution, and ends the same way, when the pair is
    presented in the other order: the two sides of every input exchanged and
    [e_ij] negated. *)
Theorem operations_same_for_swapped_pair :
  (forall dens_i dens_j press_i press_j speccoeff_ij speccoeff_ji e_ij,
      same_for_swapped_pair
        (Monaghan.pressure_gradient dens_i dens_j press_i press_j
           speccoeff_ij speccoeff_ji e_ij)
        (Monaghan.pressure_gradient dens_j dens_i press_j press_i
           speccoeff_ji speccoeff_ij (vopp e_ij)) /\
      same_for_swapped_pair
        (Adami.pressure_gradient dens_i dens_j press_i press_j
           speccoeff_ij speccoeff_ji e_ij)
        (Adami.pressure_gradient dens_j dens_i press_j press_i
           speccoeff_ji speccoeff_ij (vopp e_ij))) /\
  (forall dens_i dens_j vel_i vel_j kernelfac visc_i visc_j bulk_visc_i
          bulk_visc_j abs_rij speccoeff_ij speccoeff_ji e_ij,
      same_for_swapped_pair
        (Monaghan.shear_forces dens_i dens_j vel_i vel_j kernelfac visc_i
           visc_j bulk_visc_i bulk_visc_j abs_rij speccoeff_ij speccoeff_ji
           e_ij)
        (Monaghan.shear_forces dens_j dens_i vel_j vel_i kernelfac visc_j
           visc_i bulk_visc_j bulk_visc_i abs_rij speccoeff_ji speccoeff_ij
           (vopp e_ij)) /\
      same_for_swapped_pair
        (Adami.shear_forces dens_i dens_j vel_i vel_j kernelfac visc_i
           visc_j bulk_visc_i bulk_visc_j abs_rij speccoeff_ij speccoeff_ji
           e_ij)
        (Adami.shear_forces dens_j dens_i vel_j vel_i kernelfac visc_j
           visc_i bulk_visc_j bulk_visc_i abs_rij speccoeff_ji speccoeff_ij
           (vopp e_ij))) /\
  (forall dens_i dens_j bg_press_i bg_press_j speccoeff_ij speccoeff_ji e_ij,
      same_for_swapped_pair
        (Monaghan.standard_background_pressure dens_i dens_j bg_press_i
           bg_press_j speccoeff_ij speccoeff_ji e_ij)
        (Monaghan.standard_background_pressure dens_j dens_i bg_press_j
           bg_press_i speccoeff_ji speccoeff_ij (vopp e_ij)) /\
      same_for_swapped_pair
        (Adami.standard_background_pressure dens_i dens_j bg_press_i
           bg_press_j speccoeff_ij speccoeff_ji e_ij)
        (Adami.standard_background_pressure dens_j dens_i bg_press_j
           bg_press_i speccoeff_ji speccoeff_ij (vopp e_ij))) /\
  (forall dens_i dens_j mass_i mass_j mod_bg_press_i mod_bg_press_j
          mod_dWdrij mod_dWdrji e_ij,
      same_for_swapped_pair
        (Monaghan.generalized_background_pressure dens_i dens_j mass_i
           mass_j mod_bg_press_i mod_bg_press_j mod_dWdrij mod_dWdrji e_ij)
        (Monaghan.generalized_background_pressure dens_j dens_i mass_j
           mass_i mod_bg_press_j mod_bg_press_i mod_dWdrji mod_dWdrij
           (vopp e_ij)) /\
      same_for_swapped_pair
        (Adami.generalized_background_pressure dens_i dens_j mass_i
           mass_j mod_bg_press_i mod_bg_press_j mod_dWdrij mod_dWdrji e_ij)
        (Adami.generalized_background_pressure dens_j dens_i mass_j
           mass_i mod_bg_press_j mod_bg_press_i mod_dWdrji mod_dWdrij
           (vopp e_ij))) /\
  (forall dens_i dens_j vel_i vel_j mod_vel_i mod_vel_j speccoeff_ij
          speccoeff_ji e_ij,
      same_for_swapped_pair
        (Monaghan.modified_velocity_contribution dens_i dens_j vel_i vel_j
           mod_vel_i mod_vel_j speccoeff_ij speccoeff_ji e_ij)
        (Monaghan.modified_velocity_contribution dens_j dens_i vel_j vel_i
           mod_vel_j mod_vel_i speccoeff_ji speccoeff_ij (vopp e_ij)) /\
      same_for_swapped_pair
        (Adami.modified_velocity_contribution dens_i dens_j vel_i vel_j
           mod_vel_i mod_vel_j speccoeff_ij speccoeff_ji e_ij)
        (Adami.modified_velocity_contribution dens_j dens_i vel_j vel_i
           mod_vel_j mod_vel_i speccoeff_ji speccoeff_ij (vopp e_ij))).
Proof.
  split; [ | split; [ | split; [ | split ] ] ].
  - intros dens_i dens_j press_i press_j s_ij s_ji [e1 e2 e3].
    assert (Hfac : ((dens_j * press_i + dens_i * press_j) / (dens_j + dens_i)
                    = (dens_i * press_j + dens_j * press_i)
                      / (dens_i + dens_j))%R).
    { replace (dens_j + dens_i)%R with (dens_i + dens_j)%R by ring.
      unfold Rdiv. ring. }
    split; intros [[[a1 a2 a3]|] [[b1 b2 b3]|]]; to_reals_all;
      rewrite ?Hfac; by_components; unfold Rdiv; ring.
  - intros dens_i dens_j [u1 u2 u3] [w1 w2 w3] kernelfac visc_i visc_j
           bulk_visc_i bulk_visc_j abs_rij s_ij s_ji [e1 e2 e3].
    split; intros [[[a1 a2 a3]|] [[b1 b2 b3]|]].
    all: unfold same_for_swapped_pair, Monaghan.shear_forces,
           Adami.shear_forces;
         cbv [sltb lit sadd ssub smul sdiv sneg R_Scalar];
         rewrite ?(andb_comm (Rltb 0 visc_j) (Rltb 0 visc_i)),
                 ?(andb_comm (Rltb 0 bulk_visc_j) (Rltb 0 bulk_visc_i)),
                 ?(harmonic_comm 3 visc_i visc_j),
                 ?(harmonic_comm1 bulk_visc_i bulk_visc_j),
                 ?(harmonic_comm1 visc_i visc_j);
         replace (dens_j * dens_i)%R with (dens_i * dens_j)%R by ring.
    all: split_tests; to_reals_all; by_components; unfold Rdiv; ring.
  - intros dens_i dens_j bg_press_i bg_press_j s_ij s_ji [e1 e2 e3].
    split; intros [[[a1 a2 a3]|] [[b1 b2 b3]|]]; to_reals_all;
      by_components; unfold Rdiv; ring.
  - intros dens_i dens_j mass_i mass_j mod_bg_press_i mod_bg_press_j
           mod_dWdrij mod_dWdrji [e1 e2 e3].
    split; intros [[[a1 a2 a3]|] [[b1 b2 b3]|]]; to_reals_all;
      by_components; unfold Rdiv; ring.
  - intros dens_i dens_j [u1 u2 u3] [w1 w2 w3] mod_vel_i mod_vel_j s_ij s_ji
           [e1 e2 e3].
    split; intros [[[a1 a2 a3]|] [[b1 b2 b3]|]];
      destruct mod_vel_i as [[m1 m2 m3]|], mod_vel_j as [[n1 n2 n3]|];
      to_reals_all; by_components; unfold Rdiv; ring.
Qed.

(** [specific_coefficient] of both formulations writes the same two
    coefficients when the pair is presented in the other order. *)
Theorem specific_coefficient_same_for_swapped_pair :
  forall (dens_i dens_j mass_i mass_j dWdrij dWdrji : R) (c : Coeff R),
    Monaghan.specific_coefficient dens_j dens_i mass_j mass_i dWdrji dWdrij
      (swap_coeff c)
    = swap_coeff (Monaghan.specific_coefficient dens_i dens_j mass_i mass_j
                    dWdrij dWdrji c) /\
    Adami.specific_coefficient dens_j dens_i mass_j mass_i dWdrji dWdrij
      (swap_coeff c)
    = swap_coeff (Adami.specific_coefficient dens_i dens_j mass_i mass_j
                    dWdrij dWdrji c).
Proof.
  intros dens_i dens_j mass_i mass_j dWdrij dWdrji [[p|] [q|]];
    split; to_reals_all; by_components; ring.
Qed.

(** Close an identity of fractions in which only the two masses need to be
    cancelled: the other inverses are taken as unknowns. *)
Ltac cancel_masses mass_i mass_j :=
  unfold Rdiv;
  repeat match goal with
         | |- context [(/ ?x)%R] =>
             tryif first [ constr_eq x mass_i | constr_eq x mass_j ]
             then fail
             else (generalize (/ x)%R; intro)
         end;
  field; auto.

(** With the coefficients that [specific_coefficient] computes from one kernel
    gradient for both sides, [pressure_gradient], [shear_forces] and
    [modified_velocity_contribution] leave the linear momentum of the pair
    unchanged: the mass-weighted sum of the two added accelerations is zero.
    Adami's coefficients divide by the masses, which must not be zero. *)
Theorem pair_forces_conserve_momentum :
  forall (dens_i dens_j mass_i mass_j dWdr : R) (old_ij old_ji s_ij s_ji : R)
         (press_i press_j : R) (vel_i vel_j : Vec3 R)
         (kernelfac visc_i visc_j bulk_visc_i bulk_visc_j abs_rij : R)
         (mod_vel_i mod_vel_j : option (Vec3 R)) (e_ij a_i a_j : Vec3 R),
    (Monaghan.specific_coefficient dens_i dens_j mass_i mass_j dWdr dWdr
       (mkCoeff (Some old_ij) (Some old_ji))
     = mkCoeff (Some s_ij) (Some s_ji) ->
     momentum_added mass_i mass_j
       (Monaghan.pressure_gradient dens_i dens_j press_i press_j s_ij s_ji
          e_ij) a_i a_j = Some vzero /\
     momentum_added mass_i mass_j
       (Monaghan.shear_forces dens_i dens_j vel_i vel_j kernelfac visc_i
          visc_j bulk_visc_i bulk_visc_j abs_rij s_ij s_ji e_ij) a_i a_j
     = Some vzero /\
     momentum_added mass_i mass_j
       (Monaghan.modified_velocity_contribution dens_i dens_j vel_i vel_j
          mod_vel_i mod_vel_j s_ij s_ji e_ij) a_i a_j = Some vzero) /\
    (mass_i <> 0%R -> mass_j <> 0%R ->
     Adami.specific_coefficient dens_i dens_j mass_i mass_j dWdr dWdr
       (mkCoeff (Some old_ij) (Some old_ji))
     = mkCoeff (Some s_ij) (Some s_ji) ->
     momentum_added mass_i mass_j
       (Adami.pressure_gradient dens_i dens_j press_i press_j s_ij s_ji
          e_ij) a_i a_j = Some vzero /\
     momentum_added mass_i mass_j
       (Adami.shear_forces dens_i dens_j vel_i vel_j kernelfac visc_i
          visc_j bulk_visc_i bulk_visc_j abs_rij s_ij s_ji e_ij) a_i a_j
     = Some vzero /\
     momentum_added mass_i mass_j
       (Adami.modified_velocity_contribution dens_i dens_j vel_i vel_j
          mod_vel_i mod_vel_j s_ij s_ji e_ij) a_i a_j = Some vzero).
Proof.
  intros dens_i dens_j mass_i mass_j dWdr old_ij old_ji s_ij s_ji
         press_i press_j [u1 u2 u3] [w1 w2 w3] kernelfac visc_i visc_j
         bulk_visc_i bulk_visc_j abs_rij mod_vel_i mod_vel_j [e1 e2 e3]
         [a1 a2 a3] [b1 b2 b3].
  split.
  - intros Hc. to_reals_all. injection Hc as Hij Hji. subst s_ij s_ji.
    repeat apply conj.
    + by_components; ring.
    + split_tests; by_components; ring.
    + destruct mod_vel_i as [[m1 m2 m3]|], mod_vel_j as [[n1 n2 n3]|];
        by_components; ring.
  - intros Hmi Hmj Hc. to_reals_all. injection Hc as Hij Hji.
    subst s_ij s_ji.
    repeat apply conj.
    + by_components; cancel_masses mass_i mass_j.
    + split_tests; by_components; cancel_masses mass_i mass_j.
    + destruct mod_vel_i as [[m1 m2 m3]|], mod_vel_j as [[n1 n2 n3]|];
        by_components; cancel_masses mass_i mass_j.
Qed.

Lemma pair_forces_conserve_momentum_witness :
  (Monaghan.specific_coefficient 1%R 1%R 2%R 3%R (-1)%R (-1)%R
     (mkCoeff (Some 0%R) (Some 0%R))
   = mkCoeff (Some (-1 * 3)%R) (Some (-1 * 2)%R) /\
   momentum_added 2%R 3%R
     (Monaghan.pressure_gradient 1%R 1%R 4%R 5%R (-1 * 3)%R (-1 * 2)%R
        (mkVec3 1 0 0)%R) vzero vzero = Some vzero) /\
  (2%R <> 0%R /\ 3%R <> 0%R /\
   Adami.specific_coefficient 1%R 1%R 2%R 3%R (-1)%R (-1)%R
     (mkCoeff (Some 0%R) (Some 0%R))
   = mkCoeff (Some ((2 / 1 * (2 / 1) + 3 / 1 * (3 / 1)) * (-1 / 2))%R)
             (Some ((2 / 1 * (2 / 1) + 3 / 1 * (3 / 1)) * (-1 / 3))%R) /\
   momentum_added 2%R 3%R
     (Adami.pressure_gradient 1%R 1%R 4%R 5%R
        ((2 / 1 * (2 / 1) + 3 / 1 * (3 / 1)) * (-1 / 2))%R
        ((2 / 1 * (2 / 1) + 3 / 1 * (3 / 1)) * (-1 / 3))%R
        (mkVec3 1 0 0)%R) vzero vzero = Some vzero).
Proof.
  assert (H2 : 2%R <> 0%R) by lra.
  assert (H3 : 3%R <> 0%R) by lra.
  split.
  - split; [reflexivity | ].
    destruct (pair_forces_conserve_momentum 1%R 1%R 2%R 3%R (-1)%R 0%R 0%R
                (-1 * 3)%R (-1 * 2)%R 4%R 5%R vzero vzero 0%R 0%R 0%R 0%R
                0%R 1%R None None (mkVec3 1 0 0)%R vzero vzero) as [HM _].
    destruct (HM eq_refl) as [H _]. exact H.
  - split; [exact H2 | split; [exact H3 | split; [reflexivity | ]]].
    destruct (pair_forces_conserve_momentum 1%R 1%R 2%R 3%R (-1)%R 0%R 0%R
                ((2 / 1 * (2 / 1) + 3 / 1 * (3 / 1)) * (-1 / 2))%R
                ((2 / 1 * (2 / 1) + 3 / 1 * (3 / 1)) * (-1 / 3))%R
                4%R 5%R vzero vzero 0%R 0%R 0%R 0%R 0%R
                1%R None None (mkVec3 1 0 0)%R vzero vzero) as [_ HA].
    destruct (HA H2 H3 eq_refl) as [H _]. exact H.
Defined.

(** [shear_forces] of both formulations depends on the two velocities through
    their difference only: adding one vector to both velocities changes
    neither the way the call ends nor what it leaves in the accumulators. *)
Theorem shear_forces_galilean_invariant :
  forall (dens_i dens_j : R) (vel_i vel_j w : Vec3 R)
         (kernelfac visc_i visc_j bulk_visc_i bulk_visc_j abs_rij speccoeff_ij
          speccoeff_ji : R) (e_ij : Vec3 R) (o : Out R),
    Monaghan.shear_forces dens_i dens_j (vplus vel_i w) (vplus vel_j w)
      kernelfac visc_i visc_j bulk_visc_i bulk_visc_j abs_rij speccoeff_ij
      speccoeff_ji e_ij o
    = Monaghan.shear_forces dens_i dens_j vel_i vel_j kernelfac visc_i visc_j
        bulk_visc_i bulk_visc_j abs_rij speccoeff_ij speccoeff_ji e_ij o /\
    Adami.shear_forces dens_i dens_j (vplus vel_i w) (vplus vel_j w)
      kernelfac visc_i visc_j bulk_visc_i bulk_visc_j abs_rij speccoeff_ij
      speccoeff_ji e_ij o
    = Adami.shear_forces dens_i dens_j vel_i vel_j kernelfac visc_i visc_j
        bulk_visc_i bulk_visc_j abs_rij speccoeff_ij speccoeff_ji e_ij o.
Proof.
  intros dens_i dens_j [u1 u2 u3] [w1 w2 w3] [t1 t2 t3] kernelfac visc_i
         visc_j bulk_visc_i bulk_visc_j abs_rij s_ij s_ji [e1 e2 e3]
         [[[a1 a2 a3]|] [[b1 b2 b3]|]];
    split; to_reals_all; split_tests; by_components; ring.
Qed.

(** With equal velocities [shear_forces] leaves the accumulators as they
    were, in both formulations and whatever the viscosities; Adami's returns
    normally, Monaghan's may still throw on its viscosities. *)
Theorem shear_forces_vanish_at_equal_velocities :
  forall (dens_i dens_j : R) (vel : Vec3 R)
         (kernelfac visc_i visc_j bulk_visc_i bulk_visc_j abs_rij speccoeff_ij
          speccoeff_ji : R) (e_ij : Vec3 R) (o : Out R),
    final (Monaghan.shear_forces dens_i dens_j vel vel kernelfac visc_i
             visc_j bulk_visc_i bulk_visc_j abs_rij speccoeff_ij speccoeff_ji
             e_ij) o = o /\
    Adami.shear_forces dens_i dens_j vel vel kernelfac visc_i visc_j
      bulk_visc_i bulk_visc_j abs_rij speccoeff_ij speccoeff_ji e_ij o
    = (Returned tt, o).
Proof.
  intros dens_i dens_j [u1 u2 u3] kernelfac visc_i visc_j bulk_visc_i
         bulk_visc_j abs_rij s_ij s_ji [e1 e2 e3]
         [[[a1 a2 a3]|] [[b1 b2 b3]|]];
    split; to_reals_all; split_tests; by_components; ring.
Qed.

(** Whatever the scalar type, binary64 included, a call of Monaghan's
    [shear_forces] that throws has written nothing: the accumulators hold
    what they held at the call, and the message is the one of the safety
    check. *)
Theorem monaghan_shear_forces_throw_is_clean :
  forall (T : Type) (S : Scalar T) (dens_i dens_j : T) (vel_i vel_j : Vec3 T)
         (kernelfac visc_i visc_j bulk_visc_i bulk_visc_j abs_rij speccoeff_ij
          speccoeff_ji : T) (e_ij : Vec3 T) (o : Out T) (what : string),
    outcome (Monaghan.shear_forces dens_i dens_j vel_i vel_j kernelfac visc_i
               visc_j bulk_visc_i bulk_visc_j abs_rij speccoeff_ij
               speccoeff_ji e_ij) o = Thrown what ->
    what = "diffusion coefficient is negative!"%string /\
    final (Monaghan.shear_forces dens_i dens_j vel_i vel_j kernelfac visc_i
             visc_j bulk_visc_i bulk_visc_j abs_rij speccoeff_ij
             speccoeff_ji e_ij) o = o.
Proof.
  intros T S dens_i dens_j vel_i vel_j kernelfac visc_i visc_j bulk_visc_i
         bulk_visc_j abs_rij s_ij s_ji e_ij o what.
  unfold outcome, final, Monaghan.shear_forces, bind. cbv zeta.
  match goal with
  | |- context [if ?b then FOUR_C_THROW _ else ret tt] => destruct b
  end; cbn.
  - intros E. injection E as <-. split; reflexivity.
  - discriminate.
Qed.

Lemma monaghan_shear_forces_throw_is_clean_witness :
  outcome (Monaghan.shear_forces 1%float 1%float (mkVec3 1 2 3)%float
             (mkVec3 0 0 0)%float 1%float 0%float 0%float 1%float 1%float
             1%float 1%float 1%float (mkVec3 1 0 0)%float)
    (mkOut (Some (mkVec3 7 7 7)%float) None)
  = Thrown "diffusion coefficient is negative!" /\
  final (Monaghan.shear_forces 1%float 1%float (mkVec3 1 2 3)%float
           (mkVec3 0 0 0)%float 1%float 0%float 0%float 1%float 1%float
           1%float 1%float 1%float (mkVec3 1 0 0)%float)
    (mkOut (Some (mkVec3 7 7 7)%float) None)
  = mkOut (Some (mkVec3 7 7 7)%float) None.
Proof.
  split; [vm_compute; reflexivity | ].
  apply (monaghan_shear_forces_throw_is_clean float float_Scalar 1%float
           1%float (mkVec3 1 2 3)%float (mkVec3 0 0 0)%float 1%float 0%float
           0%float 1%float 1%float 1%float 1%float 1%float
           (mkVec3 1 0 0)%float (mkOut (Some (mkVec3 7 7 7)%float) None)
           "diffusion coefficient is negative!").
  vm_compute. reflexivity.
Defined.

(** Whatever the scalar type, binary64 included, no accumulating operation
    other than Monaghan's [shear_forces] ever throws: the nine others return
    normally at all inputs. *)
Theorem only_monaghan_shear_forces_throws :
  forall (T : Type) (S : Scalar T),
    (forall dens_i dens_j press_i press_j speccoeff_ij speccoeff_ji e_ij o,
        outcome (Monaghan.pressure_gradient dens_i dens_j press_i press_j
                   speccoeff_ij speccoeff_ji e_ij) o = Returned tt /\
        outcome (Adami.pressure_gradient dens_i dens_j press_i press_j
                   speccoeff_ij speccoeff_ji e_ij) o = Returned tt) /\
    (forall dens_i dens_j vel_i vel_j kernelfac visc_i visc_j bulk_visc_i
            bulk_visc_j abs_rij speccoeff_ij speccoeff_ji e_ij o,
        outcome (Adami.shear_forces dens_i dens_j vel_i vel_j kernelfac
                   visc_i visc_j bulk_visc_i bulk_visc_j abs_rij speccoeff_ij
                   speccoeff_ji e_ij) o = Returned tt) /\
    (forall dens_i dens_j bg_press_i bg_press_j speccoeff_ij speccoeff_ji e_ij
            o,
        outcome (Monaghan.standard_background_pressure dens_i dens_j
                   bg_press_i bg_press_j speccoeff_ij speccoeff_ji e_ij) o
        = Returned tt /\
        outcome (Adami.standard_background_pressure dens_i dens_j
                   bg_press_i bg_press_j speccoeff_ij speccoeff_ji e_ij) o
        = Returned tt) /\
    (forall dens_i dens_j mass_i mass_j mod_bg_press_i mod_bg_press_j
            mod_dWdrij mod_dWdrji e_ij o,
        outcome (Monaghan.generalized_background_pressure dens_i dens_j
                   mass_i mass_j mod_bg_press_i mod_bg_press_j mod_dWdrij
                   mod_dWdrji e_ij) o = Returned tt /\
        outcome (Adami.generalized_background_pressure dens_i dens_j
                   mass_i mass_j mod_bg_press_i mod_bg_press_j mod_dWdrij
                   mod_dWdrji e_ij) o = Returned tt) /\
    (forall dens_i dens_j vel_i vel_j mod_vel_i mod_vel_j speccoeff_ij
            speccoeff_ji e_ij o,
        outcome (Monaghan.modified_velocity_contribution dens_i dens_j vel_i
                   vel_j mod_vel_i mod_vel_j speccoeff_ij speccoeff_ji e_ij) o
        = Returned tt /\
        outcome (Adami.modified_velocity_contribution dens_i dens_j vel_i
                   vel_j mod_vel_i mod_vel_j speccoeff_ij speccoeff_ji e_ij) o
        = Returned tt).
Proof.
  intros T S.
  split; [ | split; [ | split; [ | split ] ] ]; intros;
    try (split; reflexivity).
  unfold outcome, Adami.shear_forces.
  destruct (sltb (lit Lit_0_0) visc_i && sltb (lit Lit_0_0) visc_j)%bool;
    reflexivity.
Qed.

(** With positive densities the scalar by which Adami's [pressure_gradient]
    scales [e_ij], next to the specific coefficients, lies between the two
    pressures. *)
Theorem adami_pressure_gradient_between_pressures :
  forall (dens_i dens_j press_i press_j speccoeff_ij speccoeff_ji : R)
         (e_ij : Vec3 R) (o : Out R),
    (0 < dens_i)%R -> (0 < dens_j)%R ->
    exists fac : R,
      (Rmin press_i press_j <= fac <= Rmax press_i press_j)%R /\
      Adami.pressure_gradient dens_i dens_j press_i press_j speccoeff_ij
        speccoeff_ji e_ij o
      = (Returned tt,
         mkOut (option_map (fun a => Utils.vec_add_scale a
                                       (- speccoeff_ij * fac)%R e_ij)
                           (out_i o))
               (option_map (fun a => Utils.vec_add_scale a
                                       (speccoeff_ji * fac)%R e_ij)
                           (out_j o))).
Proof.
  intros dens_i dens_j press_i press_j s_ij s_ji e_ij o Hi Hj.
  exists ((dens_i * press_j + dens_j * press_i) / (dens_i + dens_j))%R.
  split; [ | reflexivity ].
  assert (Hd : (0 < dens_i + dens_j)%R) by lra.
  split.
  - apply Rmult_le_reg_r with (dens_i + dens_j)%R; [exact Hd | ].
    unfold Rdiv. rewrite Rmult_assoc, Rinv_l, Rmult_1_r by lra.
    unfold Rmin. destruct (Rle_dec press_i press_j); nra.
  - apply Rmult_le_reg_r with (dens_i + dens_j)%R; [exact Hd | ].
    unfold Rdiv. rewrite Rmult_assoc, Rinv_l, Rmult_1_r by lra.
    unfold Rmax. destruct (Rle_dec press_i press_j); nra.
Qed.

Lemma adami_pressure_gradient_between_pressures_witness :
  (0 < 2)%R /\ (0 < 1)%R /\
  exists fac : R,
    (Rmin 4 3 <= fac <= Rmax 4 3)%R /\
    Adami.pressure_gradient 2%R 1%R 4%R 3%R 1%R 1%R (mkVec3 1 0 0)%R
      (mkOut (Some vzero) None)
    = (Returned tt,
       mkOut (Some (Utils.vec_add_scale vzero (- 1 * fac)%R (mkVec3 1 0 0)%R))
             None).
Proof.
  assert (H2 : (0 < 2)%R) by lra.
  assert (H1 : (0 < 1)%R) by lra.
  split; [exact H2 | split; [exact H1 | ]].
  exact (adami_pressure_gradient_between_pressures 2%R 1%R 4%R 3%R 1%R 1%R
           (mkVec3 1 0 0)%R (mkOut (Some vzero) None) H2 H1).
Defined.

(** With both modified velocities null, [modified_velocity_contribution]
    returns with the accumulators as they were, in both formulations. *)
Theorem modified_velocity_contribution_without_modified_velocities :
  forall (dens_i dens_j : R) (vel_i vel_j : Vec3 R)
         (speccoeff_ij speccoeff_ji : R) (e_ij : Vec3 R) (o : Out R),
    Monaghan.modified_velocity_contribution dens_i dens_j vel_i vel_j None
      None speccoeff_ij speccoeff_ji e_ij o = (Returned tt, o) /\
    Adami.modified_velocity_contribution dens_i dens_j vel_i vel_j None
      None speccoeff_ij speccoeff_ji e_ij o = (Returned tt, o).
Proof.
  intros dens_i dens_j vel_i vel_j s_ij s_ji e_ij
         [[[a1 a2 a3]|] [[b1 b2 b3]|]];
    split; to_reals_all; by_components; ring.
Qed.

Lemma dissipation_sign (s_ij s_ji k n : R) :
  (s_ij <= 0)%R -> (s_ji <= 0)%R -> (0 <= k)%R -> (0 <= n)%R ->
  ((s_ij + s_ji) * (k * n) <= 0)%R.
Proof.
  intros Hi Hj Hk Hn.
  assert (Hkn : (0 <= k * n)%R) by (apply Rmult_le_pos; assumption).
  nra.
Qed.

Lemma sum_of_squares_nonneg (x y z : R) : (0 <= x * x + y * y + z * z)%R.
Proof. nra. Qed.

(** [shear_forces] damps the relative motion: with a positive distance and
    specific coefficients that are not positive (a kernel that decreases
    with the distance), the relative velocity times the difference of the
    two added accelerations is not positive.  For Monaghan's, with positive
    densities and a kernel factor that is not negative. *)
Theorem shear_forces_dissipate :
  forall (dens_i dens_j : R) (vel_i vel_j : Vec3 R)
         (kernelfac visc_i visc_j bulk_visc_i bulk_visc_j abs_rij speccoeff_ij
          speccoeff_ji : R) (e_ij a_i a_j : Vec3 R),
    (0 < abs_rij)%R -> (speccoeff_ij <= 0)%R -> (speccoeff_ji <= 0)%R ->
    (exists power : R,
        relative_power vel_i vel_j
          (Adami.shear_forces dens_i dens_j vel_i vel_j kernelfac visc_i
             visc_j bulk_visc_i bulk_visc_j abs_rij speccoeff_ij speccoeff_ji
             e_ij) a_i a_j = Some power /\ (power <= 0)%R) /\
    ((0 < dens_i)%R -> (0 < dens_j)%R -> (0 <= kernelfac)%R ->
     exists power : R,
        relative_power vel_i vel_j
          (Monaghan.shear_forces dens_i dens_j vel_i vel_j kernelfac visc_i
             visc_j bulk_visc_i bulk_visc_j abs_rij speccoeff_ij speccoeff_ji
             e_ij) a_i a_j = Some power /\ (power <= 0)%R).
Proof.
  intros dens_i dens_j [u1 u2 u3] [w1 w2 w3] kernelfac visc_i visc_j
         bulk_visc_i bulk_visc_j abs_rij s_ij s_ji [e1 e2 e3] [a1 a2 a3]
         [b1 b2 b3] Hr Hsi Hsj.
  pose proof (sum_of_squares_nonneg (u1 - w1) (u2 - w2) (u3 - w3)) as Hn.
  split.
  - unfold relative_power, added, final, Adami.shear_forces.
    cbv [sltb lit sadd ssub smul sdiv sneg R_Scalar]. cbv zeta.
    destruct (Rltb 0 visc_i && Rltb 0 visc_j)%bool eqn:Hv.
    + apply andb_prop in Hv as [Hvi Hvj].
      unfold Rltb in Hvi, Hvj.
      destruct (Rlt_dec 0 visc_i) as [Hvi' | ]; [ | discriminate Hvi].
      destruct (Rlt_dec 0 visc_j) as [Hvj' | ]; [ | discriminate Hvj].
      pose proof (harmonic_nonneg 1 visc_i visc_j ltac:(lra) Hvi' Hvj') as Hh.
      replace (1 * (visc_i + visc_j))%R with (visc_i + visc_j)%R in Hh
        by ring.
      set (visc := (2 * visc_i * visc_j / (visc_i + visc_j))%R) in *.
      assert (Hfac : (0 <= visc / abs_rij)%R).
      { apply Rmult_le_pos; [exact Hh | ].
        apply Rlt_le, Rinv_0_lt_compat, Hr. }
      set (fac := (visc / abs_rij)%R) in *.
      to_reals. eexists. split; [reflexivity | ].
      pose proof (dissipation_sign s_ij s_ji fac _ Hsi Hsj Hfac Hn) as Hd.
      lra.
    + to_reals. eexists. split; [reflexivity | ]. lra.
  - intros Hdi Hdj Hk.
    unfold relative_power, added, final, Monaghan.shear_forces.
    cbv [sltb lit sadd ssub smul sdiv sneg R_Scalar]. cbv zeta.
    set (sv := if (Rltb 0 visc_i && Rltb 0 visc_j)%bool
               then (2 * visc_i * visc_j / (3 * (visc_i + visc_j)))%R
               else 0%R).
    set (bv := if (Rltb 0 bulk_visc_i && Rltb 0 bulk_visc_j)%bool
               then (2 * bulk_visc_i * bulk_visc_j
                     / (bulk_visc_i + bulk_visc_j))%R
               else 0%R).
    assert (Hsv : (0 <= sv)%R).
    { subst sv. unfold Rltb.
      destruct (Rlt_dec 0 visc_i), (Rlt_dec 0 visc_j); cbn; try lra.
      apply harmonic_nonneg; lra. }
    assert (Hbv : (0 <= bv)%R).
    { subst bv. unfold Rltb.
      destruct (Rlt_dec 0 bulk_visc_i), (Rlt_dec 0 bulk_visc_j); cbn;
        try lra.
      replace (bulk_visc_i + bulk_visc_j)%R
        with (1 * (bulk_visc_i + bulk_visc_j))%R by ring.
      apply harmonic_nonneg; lra. }
    clearbody sv bv.
    assert (Hinv : (0 <= 1 / (dens_i * dens_j * abs_rij))%R).
    { apply Rlt_le, Rdiv_lt_0_compat; [lra | ].
      repeat apply Rmult_lt_0_compat; assumption. }
    set (inv := (1 / (dens_i * dens_j * abs_rij))%R) in *. clearbody inv.
    unfold Rltb at 1.
    destruct (Rlt_dec (5 * sv - bv) 0) as [Hd | Hd].
    + to_reals. eexists. split; [reflexivity | ]. lra.
    + to_reals. eexists. split; [reflexivity | ].
      set (dv := ((u1 - w1) * e1 + (u2 - w2) * e2 + (u3 - w3) * e3)%R).
      assert (Hmag : (0 <= (5 * sv - bv)
                           * ((u1 - w1) * (u1 - w1) + (u2 - w2) * (u2 - w2)
                              + (u3 - w3) * (u3 - w3))
                          + kernelfac * (bv + sv) * (dv * dv))%R).
      { apply Rplus_le_le_0_compat.
        - apply Rmult_le_pos; [lra | exact Hn].
        - apply Rmult_le_pos; [apply Rmult_le_pos; lra | nra]. }
      pose proof (dissipation_sign s_ij s_ji inv _ Hsi Hsj Hinv Hmag) as Hp.
      subst dv. lra.
Qed.

Lemma shear_forces_dissipate_witness :
  (0 < 1)%R /\ (-1 <= 0)%R /\ (-2 <= 0)%R /\
  exists power : R,
    relative_power (mkVec3 1 0 0)%R (mkVec3 0 1 0)%R
      (Adami.shear_forces 1%R 1%R (mkVec3 1 0 0)%R (mkVec3 0 1 0)%R 1%R 2%R
         3%R 0%R 0%R 1%R (-1)%R (-2)%R (mkVec3 1 0 0)%R) vzero vzero
    = Some power /\ (power <= 0)%R.
Proof.
  assert (Hr : (0 < 1)%R) by lra.
  assert (Hi : (-1 <= 0)%R) by lra.
  assert (Hj : (-2 <= 0)%R) by lra.
  split; [exact Hr | split; [exact Hi | split; [exact Hj | ]]].
  destruct (shear_forces_dissipate 1%R 1%R (mkVec3 1 0 0)%R (mkVec3 0 1 0)%R
              1%R 2%R 3%R 0%R 0%R 1%R (-1)%R (-2)%R (mkVec3 1 0 0)%R vzero
              vzero Hr Hi Hj) as [H _].
  exact H.
Defined.

Lemma accumulates_commute (p q : Proc R unit) :
  accumulates p -> accumulates q ->
  forall o : Out R,
    outcome p o = Returned tt -> outcome q o = Returned tt ->
    (p ;; q) o = (q ;; p) o.
Proof.
  intros Hp Hq o.
  destruct (accumulates_steps p Hp) as [rp [dpi [dpj Ep]]].
  destruct (accumulates_steps q Hq) as [rq [dqi [dqj Eq]]].
  unfold outcome, bind. rewrite Ep, Eq. cbn [fst].
  intros -> ->. rewrite Ep, Eq. cbn [out_i out_j].
  destruct o as [[a|] [b|]]; cbn [option_map out_i out_j];
    rewrite ?(fold_left_vplus dqi (fold_left vplus dpi a)),
            ?(fold_left_vplus dpi (fold_left vplus dqi a)),
            ?(fold_left_vplus dqj (fold_left vplus dpj b)),
            ?(fold_left_vplus dpj (fold_left vplus dqj b)),
            ?(fold_left_vplus dpi a), ?(fold_left_vplus dqi a),
            ?(fold_left_vplus dpj b), ?(fold_left_vplus dqj b);
    repeat match goal with
           | |- context [fold_left vplus ?ds vzero] =>
               let s := fresh "s" in
               destruct (fold_left vplus ds vzero) as [? ? ?] eqn:s;
               clear s
           end;
    try destruct a as [a1 a2 a3]; try destruct b as [b1 b2 b3];
    to_reals; by_components; ring.
Qed.

(** Two calls that return normally can be made in either order: for any two
    of the accumulating operations, of either formulation and at any inputs,
    running one after the other on the same accumulators leaves the same
    contents whichever comes first. *)
Theorem successive_calls_commute :
  every_accumulating_operation (T := R) (fun p =>
    every_accumulating_operation (T := R) (fun q =>
      forall o : Out R,
        outcome p o = Returned tt -> outcome q o = Returned tt ->
        (p ;; q) o = (q ;; p) o)).
Proof.
  apply (every_accumulating_operation_impl accumulates);
    [ | apply operations_accumulate ].
  intros p Hp.
  apply (every_accumulating_operation_impl accumulates);
    [ | apply operations_accumulate ].
  intros q Hq. apply accumulates_commute; assumption.
Qed.

(** For two particles of equal mass and positive densities, each formulation
    using the coefficients of its own [specific_coefficient], the two
    formulations make the same [standard_background_pressure] and
    [generalized_background_pressure] updates, and the same
    [pressure_gradient] update when the densities are equal too. *)
Theorem formulations_agree_for_equal_masses :
  forall (dens_i dens_j mass dWdrij dWdrji old_ij old_ji : R)
         (sM_ij sM_ji sA_ij sA_ji : R) (e_ij : Vec3 R) (o : Out R),
    mass <> 0%R -> (0 < dens_i)%R -> (0 < dens_j)%R ->
    Monaghan.specific_coefficient dens_i dens_j mass mass dWdrij dWdrji
      (mkCoeff (Some old_ij) (Some old_ji))
    = mkCoeff (Some sM_ij) (Some sM_ji) ->
    Adami.specific_coefficient dens_i dens_j mass mass dWdrij dWdrji
      (mkCoeff (Some old_ij) (Some old_ji))
    = mkCoeff (Some sA_ij) (Some sA_ji) ->
    (forall bg_press_i bg_press_j,
        Monaghan.standard_background_pressure dens_i dens_j bg_press_i
          bg_press_j sM_ij sM_ji e_ij o
        = Adami.standard_background_pressure dens_i dens_j bg_press_i
            bg_press_j sA_ij sA_ji e_ij o) /\
    (forall mod_bg_press_i mod_bg_press_j mod_dWdrij mod_dWdrji,
        Monaghan.generalized_background_pressure dens_i dens_j mass mass
          mod_bg_press_i mod_bg_press_j mod_dWdrij mod_dWdrji e_ij o
        = Adami.generalized_background_pressure dens_i dens_j mass mass
            mod_bg_press_i mod_bg_press_j mod_dWdrij mod_dWdrji e_ij o) /\
    (dens_i = dens_j ->
     forall press_i press_j,
        Monaghan.pressure_gradient dens_i dens_j press_i press_j sM_ij sM_ji
          e_ij o
        = Adami.pressure_gradient dens_i dens_j press_i press_j sA_ij sA_ji
            e_ij o).
Proof.
  intros dens_i dens_j mass dWdrij dWdrji old_ij old_ji sM_ij sM_ji sA_ij
         sA_ji [e1 e2 e3] o Hm Hdi Hdj HM HA.
  revert HM HA. to_reals. intros HM HA.
  injection HM as <- <-. injection HA as <- <-.
  repeat apply conj.
  - intros bg_press_i bg_press_j.
    destruct o as [[[a1 a2 a3]|] [[b1 b2 b3]|]]; to_reals;
      by_components; field; repeat split; lra.
  - intros mod_bg_press_i mod_bg_press_j mod_dWdrij mod_dWdrji.
    destruct o as [[[a1 a2 a3]|] [[b1 b2 b3]|]]; to_reals;
      by_components; unfold Rdiv; ring.
  - intros <- press_i press_j.
    destruct o as [[[a1 a2 a3]|] [[b1 b2 b3]|]]; to_reals;
      by_components; field; repeat split; lra.
Qed.

Lemma successive_calls_commute_witness :
  let p := Monaghan.pressure_gradient 1%R 1%R 4%R 5%R (-1)%R (-1)%R
             (mkVec3 1 0 0)%R in
  let q := Adami.shear_forces 1%R 1%R (mkVec3 1 0 0)%R (mkVec3 0 1 0)%R 1%R
             2%R 3%R 0%R 0%R 1%R (-1)%R (-1)%R (mkVec3 1 0 0)%R in
  let o := mkOut (Some vzero) (Some vzero) in
  outcome p o = Returned tt /\ outcome q o = Returned tt /\
  (p ;; q) o = (q ;; p) o.
Proof.
  intros p q o.
  assert (Hp : outcome p o = Returned tt) by reflexivity.
  assert (Hq : outcome q o = Returned tt).
  { subst p q o. to_reals. settle_tests. reflexivity. }
  split; [exact Hp | split; [exact Hq | ]].
  destruct successive_calls_commute as [H _].
  destruct (H 1%R 1%R 4%R 5%R (-1)%R (-1)%R (mkVec3 1 0 0)%R)
    as [(_ & H2 & _) _].
  destruct (H2 1%R 1%R (mkVec3 1 0 0)%R (mkVec3 0 1 0)%R 1%R 2%R 3%R 0%R 0%R
              1%R (-1)%R (-1)%R (mkVec3 1 0 0)%R) as [_ HA].
  exact (HA o Hp Hq).
Defined.

Lemma formulations_agree_for_equal_masses_witness :
  2%R <> 0%R /\ (0 < 1)%R /\ (0 < 1)%R /\
  Monaghan.standard_background_pressure 1%R 1%R 4%R 5%R (-1 * 2)%R (-1 * 2)%R
    (mkVec3 1 0 0)%R (mkOut (Some vzero) (Some vzero))
  = Adami.standard_background_pressure 1%R 1%R 4%R 5%R
      ((2 / 1 * (2 / 1) + 2 / 1 * (2 / 1)) * (-1 / 2))%R
      ((2 / 1 * (2 / 1) + 2 / 1 * (2 / 1)) * (-1 / 2))%R
      (mkVec3 1 0 0)%R (mkOut (Some vzero) (Some vzero)).
Proof.
  assert (Hm : 2%R <> 0%R) by lra.
  assert (Hd : (0 < 1)%R) by lra.
  split; [exact Hm | split; [exact Hd | split; [exact Hd | ]]].
  destruct (formulations_agree_for_equal_masses 1%R 1%R 2%R (-1)%R (-1)%R
              0%R 0%R (-1 * 2)%R (-1 * 2)%R
              ((2 / 1 * (2 / 1) + 2 / 1 * (2 / 1)) * (-1 / 2))%R
              ((2 / 1 * (2 / 1) + 2 / 1 * (2 / 1)) * (-1 / 2))%R
              (mkVec3 1 0 0)%R (mkOut (Some vzero) (Some vzero))
              Hm Hd Hd eq_refl eq_refl) as [H _].
  exact (H 4%R 5%R).
Defined.

(** ** The runtime output parameter container *)

Module BeamToBeamPotentialRuntimeOutputParamsFacts.
Import BeamToBeamPotentialRuntimeOutputParams.
Local Open Scope string_scope.
Local Open Scope method_scope.

Ltac run_method :=
  cbv [init setup throw_error_if_not_init throw_error_if_not_init_and_setup
       is_init is_setup mbind mret call assign
       isinit_ issetup_ every_iteration_ output_interval_steps_
       output_every_iteration_ output_forces_ output_moments_
       write_force_moment_per_elepair_ output_uids_ negb orb].

(** From any state of the object, [init] with a parameter list that holds the
    six entries, then [setup], leaves an object that passes
    [throw_error_if_not_init_and_setup] and whose members are the values of
    the list; [every_iteration_] of the visualization parameters is the
    value of EVERY_ITERATION. *)
Theorem init_then_setup_is_ready :
  forall (pl : ParameterList) (s : State),
    complete pl ->
    exists s' : State,
      (init pl ;; setup ;; throw_error_if_not_init_and_setup) s
      = (Returned tt, s') /\
      isinit_ s' = true /\ issetup_ s' = true /\
      get_int pl "INTERVAL_STEPS" = Returned (output_interval_steps_ s') /\
      get_bool pl "EVERY_ITERATION" = Returned (output_every_iteration_ s') /\
      every_iteration_ s' = output_every_iteration_ s' /\
      get_bool pl "FORCES" = Returned (output_forces_ s') /\
      get_bool pl "MOMENTS" = Returned (output_moments_ s') /\
      get_bool pl "WRITE_FORCE_MOMENT_PER_ELEMENTPAIR"
      = Returned (write_force_moment_per_elepair_ s') /\
      get_bool pl "WRITE_UIDS" = Returned (output_uids_ s').
Proof.
  intros pl [i u e n oe f m w uids]
         ([v1 H1] & [v2 H2] & [v3 H3] & [v4 H4] & [v5 H5] & [v6 H6]).
  run_method. rewrite H1, H2, H3, H4, H5, H6. run_method.
  eexists. split; [reflexivity | ].
  cbn. repeat split; reflexivity.
Qed.

(** [init] always asks for [setup] again: whatever the parameter list and the
    state, also one that was set up before, the check
    [throw_error_if_not_init_and_setup] made right after [init] throws. *)
Theorem init_needs_setup_again :
  forall (pl : ParameterList) (s : State),
    exists (what : string) (s' : State),
      (init pl ;; throw_error_if_not_init_and_setup) s = (Thrown what, s') /\
      issetup_ s' = false.
Proof.
  intros pl [i u e n oe f m w uids]. run_method.
  destruct (get_int pl "INTERVAL_STEPS");
    [ destruct (get_bool pl "EVERY_ITERATION");
      [ destruct (get_bool pl "FORCES");
        [ destruct (get_bool pl "MOMENTS");
          [ destruct (get_bool pl "WRITE_FORCE_MOMENT_PER_ELEMENTPAIR");
            [ destruct (get_bool pl "WRITE_UIDS") | ] | ] | ] | ] | ];
    run_method; eexists; eexists; split; reflexivity.
Qed.

(** [init] returns normally exactly when the parameter list holds the six
    entries with their types, and then the object is initialised and not set
    up; otherwise it throws, [isinit_] keeps the value it had and the object
    is not set up. *)
Theorem init_returns_exactly_when_complete :
  forall (pl : ParameterList) (s : State),
    (complete pl /\
     exists s' : State,
       init pl s = (Returned tt, s') /\
       isinit_ s' = true /\ issetup_ s' = false) \/
    (~ complete pl /\
     exists (what : string) (s' : State),
       init pl s = (Thrown what, s') /\
       isinit_ s' = isinit_ s /\ issetup_ s' = false).
Proof.
  intros pl [i u e n oe f m w uids]. unfold complete. run_method.
  destruct (get_int pl "INTERVAL_STEPS");
    [ destruct (get_bool pl "EVERY_ITERATION");
      [ destruct (get_bool pl "FORCES");
        [ destruct (get_bool pl "MOMENTS");
          [ destruct (get_bool pl "WRITE_FORCE_MOMENT_PER_ELEMENTPAIR");
            [ destruct (get_bool pl "WRITE_UIDS") | ] | ] | ] | ] | ];
    run_method.
  1: left; split;
       [ repeat split; eexists; reflexivity
       | eexists; repeat split; reflexivity ].
  all: right; split;
       [ intros (H1 & H2 & H3 & H4 & H5 & H6);
         first [ destruct H1 as [? H1]; discriminate H1
               | destruct H2 as [? H2]; discriminate H2
               | destruct H3 as [? H3]; discriminate H3
               | destruct H4 as [? H4]; discriminate H4
               | destruct H5 as [? H5]; discriminate H5
               | destruct H6 as [? H6]; discriminate H6 ]
       | eexists; eexists; repeat split; reflexivity ].
Qed.

Lemma init_clears_issetup (pl : ParameterList) (s : State) :
  issetup_ (snd (init pl s)) = false.
Proof.
  destruct s as [i u e n oe f m w uids]. run_method.
  destruct (get_int pl "INTERVAL_STEPS");
    [ destruct (get_bool pl "EVERY_ITERATION");
      [ destruct (get_bool pl "FORCES");
        [ destruct (get_bool pl "MOMENTS");
          [ destruct (get_bool pl "WRITE_FORCE_MOMENT_PER_ELEMENTPAIR");
            [ destruct (get_bool pl "WRITE_UIDS") | ] | ] | ] | ] | ];
    reflexivity.
Qed.

(** An object that is set up is initialised: this holds of the constructed
    object and is kept by [init], [setup] and the two checks, whether they
    return or throw.  On such an object the check of both phases passes
    exactly when the object is set up. *)
Theorem setup_only_after_init :
  forall (factory_every_iteration : bool) (pl : ParameterList),
    setup_implies_init (constructed factory_every_iteration) /\
    (forall s : State,
        setup_implies_init s ->
        setup_implies_init (snd (init pl s)) /\
        setup_implies_init (snd (setup s)) /\
        setup_implies_init (snd (throw_error_if_not_init s)) /\
        setup_implies_init (snd (throw_error_if_not_init_and_setup s))) /\
    (forall s : State,
        setup_implies_init s ->
        fst (throw_error_if_not_init_and_setup s) = Returned tt <->
        issetup_ s = true).
Proof.
  intros b pl. unfold setup_implies_init. split; [ | split ].
  - cbn. discriminate.
  - intros s Hs. repeat apply conj.
    + rewrite init_clears_issetup. discriminate.
    + destruct s as [[|] [|] e n oe f m w u]; cbn in *; auto.
    + destruct s as [[|] [|] e n oe f m w u]; cbn in *; auto.
    + destruct s as [[|] [|] e n oe f m w u]; cbn in *; auto.
  - intros s Hs.
    destruct s as [[|] [|] e n oe f m w u]; cbn in *;
      split; intros H; try reflexivity; try discriminate H.
    discriminate (Hs eq_refl).
Qed.

(** An [init] that fails on a missing or ill-typed FORCES entry has already
    overwritten the step interval and the two every-iteration flags and has
    left the other members alone; an object that was initialised before
    still counts as initialised, so [setup] accepts it. *)
Theorem failed_init_leaves_half_updated_object :
  forall (pl : ParameterList) (s : State) (steps : Z) (every : bool)
         (what : string),
    get_int pl "INTERVAL_STEPS" = Returned steps ->
    get_bool pl "EVERY_ITERATION" = Returned every ->
    get_bool pl "FORCES" = Thrown what ->
    isinit_ s = true ->
    exists s' : State,
      init pl s = (Thrown what, s') /\
      output_interval_steps_ s' = steps /\
      output_every_iteration_ s' = every /\
      every_iteration_ s' = every /\
      output_forces_ s' = output_forces_ s /\
      output_moments_ s' = output_moments_ s /\
      write_force_moment_per_elepair_ s'
      = write_force_moment_per_elepair_ s /\
      output_uids_ s' = output_uids_ s /\
      fst (setup s') = Returned tt.
Proof.
  intros pl [i u e n oe f m w uids] steps every what H1 H2 H3 Hi.
  cbn in Hi. subst i.
  run_method. rewrite H1, H2, H3. run_method.
  eexists. split; [reflexivity | ].
  cbn. repeat split; reflexivity.
Qed.

Lemma failed_init_leaves_half_updated_object_witness :
  let pl := [("INTERVAL_STEPS", IntEntry 5); ("EVERY_ITERATION", BoolEntry true);
             ("MOMENTS", BoolEntry true)] in
  let s := mkState true true false 1 false true false false false in
  get_int pl "INTERVAL_STEPS" = Returned 5%Z /\
  get_bool pl "EVERY_ITERATION" = Returned true /\
  get_bool pl "FORCES" = Thrown "Teuchos::Exceptions::InvalidParameterName" /\
  isinit_ s = true /\
  exists s' : State,
    init pl s = (Thrown "Teuchos::Exceptions::InvalidParameterName", s') /\
    output_interval_steps_ s' = 5%Z /\
    output_every_iteration_ s' = true /\
    every_iteration_ s' = true /\
    output_forces_ s' = output_forces_ s /\
    output_moments_ s' = output_moments_ s /\
    write_force_moment_per_elepair_ s' = write_force_moment_per_elepair_ s /\
    output_uids_ s' = output_uids_ s /\
    fst (setup s') = Returned tt.
Proof.
  intros pl s.
  split; [reflexivity | split; [reflexivity | split; [reflexivity
    | split; [reflexivity | ]]]].
  apply (failed_init_leaves_half_updated_object pl s 5%Z true
           "Teuchos::Exceptions::InvalidParameterName"); reflexivity.
Defined.

Lemma init_then_setup_is_ready_witness :
  let pl := [("INTERVAL_STEPS", IntEntry 5); ("EVERY_ITERATION", BoolEntry true);
             ("FORCES", BoolEntry true); ("MOMENTS", BoolEntry false);
             ("WRITE_FORCE_MOMENT_PER_ELEMENTPAIR", BoolEntry false);
             ("WRITE_UIDS", BoolEntry true)] in
  complete pl /\
  exists s' : State,
    (init pl ;; setup ;; throw_error_if_not_init_and_setup) (constructed false)
    = (Returned tt, s') /\
    isinit_ s' = true /\ issetup_ s' = true /\
    get_int pl "INTERVAL_STEPS" = Returned (output_interval_steps_ s') /\
    get_bool pl "EVERY_ITERATION" = Returned (output_every_iteration_ s') /\
    every_iteration_ s' = output_every_iteration_ s' /\
    get_bool pl "FORCES" = Returned (output_forces_ s') /\
    get_bool pl "MOMENTS" = Returned (output_moments_ s') /\
    get_bool pl "WRITE_FORCE_MOMENT_PER_ELEMENTPAIR"
    = Returned (write_force_moment_per_elepair_ s') /\
    get_bool pl "WRITE_UIDS" = Returned (output_uids_ s').
Proof.
  intros pl.
  assert (Hc : complete pl) by (repeat split; eexists; reflexivity).
  split; [exact Hc | ].
  apply (init_then_setup_is_ready pl (constructed false) Hc).
Defined.

Lemma setup_only_after_init_witness :
  setup_implies_init (mkState true false false 5 false false false false false)
  /\
  setup_implies_init
    (snd (setup (mkState true false false 5 false false false false false))).
Proof.
  assert (H : setup_implies_init
                (mkState true false false 5 false false false false false))
    by (intros E; reflexivity).
  split; [exact H | ].
  destruct (setup_only_after_init false []) as (_ & Hk & _).
  destruct (Hk _ H) as (_ & Hs & _). exact Hs.
Defined.

End BeamToBeamPotentialRuntimeOutputParamsFacts.

(** ** Binary64: zeros and finite numbers *)

Lemma zero_finite (x : float) : zero x = true -> finite x = true.
Proof. unfold zero, finite. destruct (Prim2SF x); auto. Qed.

Lemma zero_mul_l (z x : float) :
  zero z = true -> finite x = true -> zero (z * x)%float = true.
Proof.
  unfold zero, finite. rewrite mul_spec.
  destruct (Prim2SF z), (Prim2SF x); cbn; intros; try discriminate;
    reflexivity.
Qed.

Lemma zero_mul_r (x z : float) :
  finite x = true -> zero z = true -> zero (x * z)%float = true.
Proof.
  unfold zero, finite. rewrite mul_spec.
  destruct (Prim2SF z), (Prim2SF x); cbn; intros; try discriminate;
    reflexivity.
Qed.

Lemma finite_opp (x : float) : finite x = true -> finite (- x)%float = true.
Proof.
  unfold finite. rewrite opp_spec. destruct (Prim2SF x); cbn; auto.
Qed.

Lemma add_zero (c z : float) :
  zero z = true -> same_number (c + z)%float c.
Proof.
  unfold same_number, zero. intros Hz.
  destruct (Prim2SF z) as [sz | | | ] eqn:Ez; try discriminate Hz.
  destruct (Prim2SF c) as [sc | sc | | sc mc ec] eqn:Ec.
  - right. rewrite add_spec, Ez, Ec. split; [ | reflexivity ].
    destruct sc, sz; reflexivity.
  - left. apply Prim2SF_inj. rewrite add_spec, Ez, Ec. reflexivity.
  - left. apply Prim2SF_inj. rewrite add_spec, Ez, Ec. reflexivity.
  - left. apply Prim2SF_inj. rewrite add_spec, Ez, Ec. reflexivity.
Qed.

Lemma same_number_trans (x y z : float) :
  same_number x y -> same_number y z -> same_number x z.
Proof.
  intros [-> | [Hx Hy]] [-> | [Hy' Hz]].
  - left; reflexivity.
  - right; auto.
  - right; auto.
  - right; auto.
Qed.

Lemma add_two_zeros (c z1 z2 : float) :
  zero z1 = true -> zero z2 = true -> same_number (c + z1 + z2)%float c.
Proof.
  intros H1 H2. apply same_number_trans with (c + z1)%float;
    apply add_zero; assumption.
Qed.

Lemma nonpositive_fails_test (x : float) :
  (x <=? 0)%float = true -> (0 <? x)%float = false.
Proof.
  rewrite leb_spec, ltb_spec. unfold SFleb, SFltb.
  change (Prim2SF 0%float) with (S754_zero false).
  destruct (Prim2SF x) as [s | s | | s m e]; cbn; try destruct s;
    cbn; intros; try discriminate; reflexivity.
Qed.

Lemma zero_minus_positive (y : float) :
  (0 <? y)%float = true -> (0 - y <? 0)%float = true.
Proof.
  rewrite !ltb_spec, sub_spec. unfold SFltb, SF64sub.
  change (Prim2SF 0%float) with (S754_zero false).
  destruct (Prim2SF y) as [s | s | | s m e]; cbn; try destruct s;
    cbn; intros; try discriminate; reflexivity.
Qed.


Lemma finite_vector_components (v : Vec3 float) :
  finite_vector v = true ->
  finite (vx v) = true /\ finite (vy v) = true /\ finite (vz v) = true.
Proof.
  unfold finite_vector. intros H.
  apply andb_prop in H as [H Hz]. apply andb_prop in H as [Hx Hy]. auto.
Qed.

(** A product is a zero when one factor is a zero and the other is
    finite. *)
Ltac zeros :=
  solve [ assumption
        | reflexivity
        | apply zero_mul_l; [ zeros | finites ]
        | apply zero_mul_r; [ finites | zeros ] ]
with finites :=
  solve [ assumption | apply zero_finite; zeros ].

(** Unfold a [shear_forces] call on binary64 down to the float operations,
    keeping the comparisons. *)
Ltac to_floats :=
  cbv [Monaghan.shear_forces Adami.shear_forces
       final outcome bind ret FOUR_C_THROW if_i if_j
       Utils.vec_set Utils.vec_sub Utils.vec_add_scale Utils.vec_dot
       sadd ssub smul sdiv sneg sltb lit float_Scalar
       option_map out_i out_j vx vy vz fst snd].

(** C1, as the code has it.  Whatever the scalar type, Adami's [shear_forces]
    returns at once, the accumulators untouched, when one of its two tests
    [visc > 0.0] fails.  On binary64, Monaghan's [shear_forces] of which a
    viscosity test fails (both viscosities 0, say) returns normally when a
    bulk viscosity test fails as well; every accumulator component then
    keeps its number, a zero possibly changing its sign, provided the two
    coefficients, [kernelfac], [e_ij] and the computed [vel_ij], its product
    with [e_ij] and [inv_densi_densj_absdist] are finite.  When both bulk
    viscosities pass their test and the bulk viscosity computed from them is
    positive, it throws, the accumulators untouched. *)
Theorem shear_forces_without_viscosity_binary64 :
  (forall (T : Type) (S : Scalar T) (dens_i dens_j : T) (vel_i vel_j : Vec3 T)
          (kernelfac visc_i visc_j bulk_visc_i bulk_visc_j abs_rij
           speccoeff_ij speccoeff_ji : T) (e_ij : Vec3 T) (o : Out T),
      sltb (lit Lit_0_0) visc_i = false \/ sltb (lit Lit_0_0) visc_j = false ->
      Adami.shear_forces dens_i dens_j vel_i vel_j kernelfac visc_i visc_j
        bulk_visc_i bulk_visc_j abs_rij speccoeff_ij speccoeff_ji e_ij o
      = (Returned tt, o)) /\
  (forall (dens_i dens_j : float) (vel_i vel_j : Vec3 float)
          (kernelfac visc_i visc_j bulk_visc_i bulk_visc_j abs_rij
           speccoeff_ij speccoeff_ji : float) (e_ij : Vec3 float)
          (o : Out float),
      let p := Monaghan.shear_forces dens_i dens_j vel_i vel_j kernelfac
                 visc_i visc_j bulk_visc_i bulk_visc_j abs_rij speccoeff_ij
                 speccoeff_ji e_ij in
      let vel_ij := Utils.vec_sub (Utils.vec_set vel_i) vel_j in
      let inv_densi_densj_absdist :=
        (1 / (dens_i * dens_j * abs_rij))%float in
      let bulk_viscosity :=
        (2 * bulk_visc_i * bulk_visc_j / (bulk_visc_i + bulk_visc_j))%float in
      ((0 <? visc_i)%float = false \/ (0 <? visc_j)%float = false) ->
      ((0 <? bulk_visc_i)%float = false \/ (0 <? bulk_visc_j)%float = false ->
       outcome p o = Returned tt /\
       (finite speccoeff_ij = true -> finite speccoeff_ji = true ->
        finite kernelfac = true -> finite_vector e_ij = true ->
        finite_vector vel_ij = true ->
        finite (Utils.vec_dot vel_ij e_ij) = true ->
        finite inv_densi_densj_absdist = true ->
        same_contents (final p o) o)) /\
      ((0 <? bulk_visc_i)%float = true -> (0 <? bulk_visc_j)%float = true ->
       (0 <? bulk_viscosity)%float = true ->
       p o = (Thrown "diffusion coefficient is negative!", o))).
Proof.
  split.
  - intros. apply adami_shear_forces_early_return. assumption.
  - intros dens_i dens_j [u1 u2 u3] [w1 w2 w3] kernelfac visc_i visc_j
           bulk_visc_i bulk_visc_j abs_rij s_ij s_ji [e1 e2 e3] o p vel_ij
           inv bulk_viscosity Hv.
    assert (Hvisc : ((0 <? visc_i) && (0 <? visc_j))%float = false).
    { destruct Hv as [Hv | Hv]; rewrite Hv;
        [reflexivity | apply andb_false_r]. }
    split.
    + intros Hb.
      assert (Hbulk : ((0 <? bulk_visc_i) && (0 <? bulk_visc_j))%float
                      = false).
      { destruct Hb as [Hb | Hb]; rewrite Hb;
          [reflexivity | apply andb_false_r]. }
      subst p. to_floats. rewrite Hvisc, Hbulk.
      change ((5 * 0 - 0 <? 0)%float) with false. cbv iota.
      split; [reflexivity | ].
      intros Hsi Hsj Hk He Hu Hd Hinv.
      apply finite_vector_components in He as (He1 & He2 & He3).
      subst vel_ij. cbv [Utils.vec_sub Utils.vec_set vx vy vz ssub
                         float_Scalar] in Hu.
      apply finite_vector_components in Hu as (Hu1 & Hu2 & Hu3).
      cbn [vx vy vz] in Hu1, Hu2, Hu3, He1, He2, He3.
      cbv [Utils.vec_dot Utils.vec_sub Utils.vec_set vx vy vz sadd smul ssub
           float_Scalar] in Hd.
      subst inv.
      assert (Hz0 : zero (5 * 0 - 0)%float = true) by reflexivity.
      assert (Hz1 : zero (kernelfac * (0 + 0))%float = true)
        by (apply zero_mul_r; [assumption | reflexivity]).
      pose proof (finite_opp s_ji Hsj) as Hsj'.
      unfold same_contents, same_buffer, same_vector.
      destruct o as [[[a1 a2 a3]|] [[b1 b2 b3]|]]; cbn [out_i out_j vx vy vz];
        repeat apply conj; try exact I;
        apply add_two_zeros; zeros.
    + intros Hbi Hbj Hbv. subst p. to_floats.
      rewrite Hvisc, Hbi, Hbj. cbv [andb].
      change (5 * 0)%float with 0%float.
      subst bulk_viscosity. rewrite (zero_minus_positive _ Hbv).
      reflexivity.
Qed.

Lemma shear_forces_without_viscosity_binary64_witness :
  ((0 <? 0)%float = false \/ (0 <? 2)%float = false) /\
  Adami.shear_forces 1%float 1%float (mkVec3 1 2 3)%float
    (mkVec3 0 0 0)%float 1%float 0%float 2%float 1%float 1%float 1%float
    1%float 1%float (mkVec3 1 0 0)%float
    (mkOut (Some (mkVec3 7 7 7)%float) None)
  = (Returned tt, mkOut (Some (mkVec3 7 7 7)%float) None) /\
  ((0 <? 0)%float = false \/ (0 <? 3)%float = false) /\
  finite 1%float = true /\ finite_vector (mkVec3 1 0 0)%float = true /\
  outcome (Monaghan.shear_forces 1%float 1%float (mkVec3 1 2 3)%float
             (mkVec3 0 0 0)%float 1%float 0%float 0%float 0%float 3%float
             1%float 1%float 1%float (mkVec3 1 0 0)%float)
    (mkOut (Some (mkVec3 7 7 7)%float) None) = Returned tt /\
  same_contents
    (final (Monaghan.shear_forces 1%float 1%float (mkVec3 1 2 3)%float
              (mkVec3 0 0 0)%float 1%float 0%float 0%float 0%float 3%float
              1%float 1%float 1%float (mkVec3 1 0 0)%float)
       (mkOut (Some (mkVec3 7 7 7)%float) None))
    (mkOut (Some (mkVec3 7 7 7)%float) None) /\
  (0 <? 1)%float = true /\ (0 <? 3)%float = true /\
  (0 <? 2 * 1 * 3 / (1 + 3))%float = true /\
  Monaghan.shear_forces 1%float 1%float (mkVec3 1 2 3)%float
    (mkVec3 0 0 0)%float 1%float 0%float 0%float 1%float 3%float 1%float
    1%float 1%float (mkVec3 1 0 0)%float
    (mkOut (Some (mkVec3 7 7 7)%float) None)
  = (Thrown "diffusion coefficient is negative!",
     mkOut (Some (mkVec3 7 7 7)%float) None).
Proof.
  destruct shear_forces_without_viscosity_binary64 as [HA HM].
  assert (Hv : (0 <? 0)%float = false \/ (0 <? 2)%float = false)
    by (left; reflexivity).
  assert (Hv0 : (0 <? 0)%float = false \/ (0 <? 0)%float = false)
    by (left; reflexivity).
  assert (Hb : (0 <? 0)%float = false \/ (0 <? 3)%float = false)
    by (left; reflexivity).
  split; [exact Hv | ].
  split.
  { exact (HA float float_Scalar 1%float 1%float (mkVec3 1 2 3)%float
             (mkVec3 0 0 0)%float 1%float 0%float 2%float 1%float 1%float
             1%float 1%float 1%float (mkVec3 1 0 0)%float
             (mkOut (Some (mkVec3 7 7 7)%float) None) Hv). }
  split; [exact Hb | ].
  split; [reflexivity | split; [reflexivity | ]].
  destruct (HM 1%float 1%float (mkVec3 1 2 3)%float (mkVec3 0 0 0)%float
              1%float 0%float 0%float 0%float 3%float 1%float 1%float
              1%float (mkVec3 1 0 0)%float
              (mkOut (Some (mkVec3 7 7 7)%float) None) Hv0) as [H1 _].
  destruct (H1 Hb) as [Hret Hsame].
  split; [exact Hret | ].
  split.
  { apply Hsame; reflexivity. }
  split; [reflexivity | split; [reflexivity | split; [reflexivity | ]]].
  destruct (HM 1%float 1%float (mkVec3 1 2 3)%float (mkVec3 0 0 0)%float
              1%float 0%float 0%float 1%float 3%float 1%float 1%float
              1%float (mkVec3 1 0 0)%float
              (mkOut (Some (mkVec3 7 7 7)%float) None) Hv0) as [_ H2].
  apply H2; reflexivity.
Defined.

(** C2, as the code has it.  Whatever the scalar type, binary64 included,
    Monaghan's [shear_forces] with viscosities and bulk viscosities that pass
    their tests throws, the accumulators holding what they held at the call,
    when the diffusion coefficient [5 * scaled_viscosity - bulk_viscosity],
    computed in the arithmetic of that type, tests negative.  In exact
    arithmetic this is the case when
    [5 * scaled_viscosity < bulk_viscosity]. *)
Theorem monaghan_shear_forces_rejects_negative_computed_diffusion :
  (forall (T : Type) (S : Scalar T) (dens_i dens_j : T)
          (vel_i vel_j : Vec3 T)
          (kernelfac visc_i visc_j bulk_visc_i bulk_visc_j abs_rij
           speccoeff_ij speccoeff_ji : T) (e_ij : Vec3 T) (o : Out T),
      let scaled_viscosity :=
        sdiv (smul (smul (lit Lit_2_0) visc_i) visc_j)
             (smul (lit Lit_3_0) (sadd visc_i visc_j)) in
      let bulk_viscosity :=
        sdiv (smul (smul (lit Lit_2_0) bulk_visc_i) bulk_visc_j)
             (sadd bulk_visc_i bulk_visc_j) in
      let diffusion_coeff :=
        ssub (smul (lit Lit_5_0) scaled_viscosity) bulk_viscosity in
      sltb (lit Lit_0_0) visc_i = true -> sltb (lit Lit_0_0) visc_j = true ->
      sltb (lit Lit_0_0) bulk_visc_i = true ->
      sltb (lit Lit_0_0) bulk_visc_j = true ->
      sltb diffusion_coeff (lit Lit_0_0) = true ->
      Monaghan.shear_forces dens_i dens_j vel_i vel_j kernelfac visc_i visc_j
        bulk_visc_i bulk_visc_j abs_rij speccoeff_ij speccoeff_ji e_ij o
      = (Thrown "diffusion coefficient is negative!", o)) /\
  (forall (dens_i dens_j : R) (vel_i vel_j : Vec3 R)
          (kernelfac visc_i visc_j bulk_visc_i bulk_visc_j abs_rij
           speccoeff_ij speccoeff_ji : R) (e_ij : Vec3 R) (o : Out R),
      (0 < visc_i)%R -> (0 < visc_j)%R ->
      (0 < bulk_visc_i)%R -> (0 < bulk_visc_j)%R ->
      (5 * (2 * visc_i * visc_j / (3 * (visc_i + visc_j)))
       < 2 * bulk_visc_i * bulk_visc_j / (bulk_visc_i + bulk_visc_j))%R ->
      Monaghan.shear_forces dens_i dens_j vel_i vel_j kernelfac visc_i visc_j
        bulk_visc_i bulk_visc_j abs_rij speccoeff_ij speccoeff_ji e_ij o
      = (Thrown "diffusion coefficient is negative!", o)).
Proof.
  split.
  - intros T S dens_i dens_j vel_i vel_j kernelfac visc_i visc_j bulk_visc_i
           bulk_visc_j abs_rij s_ij s_ji e_ij o sv bv dc Hvi Hvj Hbi Hbj Hd.
    unfold Monaghan.shear_forces. rewrite Hvi, Hvj, Hbi, Hbj. cbv [andb].
    cbv zeta. subst dc sv bv. unfold bind. rewrite Hd. reflexivity.
  - apply monaghan_shear_forces_rejects_negative_diffusion.
Qed.

Lemma monaghan_shear_forces_rejects_negative_computed_diffusion_witness :
  ((0 <? 1)%float = true /\ (0 <? 4)%float = true /\
   (5 * (2 * 1 * 1 / (3 * (1 + 1))) - 2 * 4 * 4 / (4 + 4) <? 0)%float = true /\
   Monaghan.shear_forces 1%float 1%float (mkVec3 1 0 0)%float
     (mkVec3 0 0 0)%float 1%float 1%float 1%float 4%float 4%float 1%float
     1%float 1%float (mkVec3 1 0 0)%float
     (mkOut (Some (mkVec3 7 8 9)%float) (Some (mkVec3 1 2 3)%float))
   = (Thrown "diffusion coefficient is negative!",
      mkOut (Some (mkVec3 7 8 9)%float) (Some (mkVec3 1 2 3)%float))) /\
  ((0 < 1)%R /\ (0 < 4)%R /\
   (5 * (2 * 1 * 1 / (3 * (1 + 1))) < 2 * 4 * 4 / (4 + 4))%R /\
   Monaghan.shear_forces 1%R 1%R (mkVec3 1 0 0)%R (mkVec3 0 0 0)%R 1%R 1%R
     1%R 4%R 4%R 1%R 1%R 1%R (mkVec3 1 0 0)%R
     (mkOut (Some (mkVec3 7 8 9)%R) (Some (mkVec3 1 2 3)%R))
   = (Thrown "diffusion coefficient is negative!",
      mkOut (Some (mkVec3 7 8 9)%R) (Some (mkVec3 1 2 3)%R))).
Proof.
  destruct monaghan_shear_forces_rejects_negative_computed_diffusion
    as [HT HR].
  split.
  - split; [reflexivity | split; [reflexivity | split; [reflexivity | ]]].
    apply (HT float float_Scalar 1%float 1%float (mkVec3 1 0 0)%float
             (mkVec3 0 0 0)%float 1%float 1%float 1%float 4%float 4%float
             1%float 1%float 1%float (mkVec3 1 0 0)%float
             (mkOut (Some (mkVec3 7 8 9)%float) (Some (mkVec3 1 2 3)%float)));
      reflexivity.
  - assert (H1 : (0 < 1)%R) by lra.
    assert (H4 : (0 < 4)%R) by lra.
    assert (Hd : (5 * (2 * 1 * 1 / (3 * (1 + 1))) < 2 * 4 * 4 / (4 + 4))%R)
      by lra.
    split; [exact H1 | split; [exact H4 | split; [exact Hd | ]]].
    exact (HR 1%R 1%R (mkVec3 1 0 0)%R (mkVec3 0 0 0)%R 1%R 1%R 1%R 4%R 4%R
             1%R 1%R 1%R (mkVec3 1 0 0)%R
             (mkOut (Some (mkVec3 7 8 9)%R) (Some (mkVec3 1 2 3)%R))
             H1 H1 H4 H4 Hd).
Defined.

(** C2 fails as stated on binary64: for the viscosities 0.05 and 0.1 and both
    bulk viscosities 0.11111111111111112 (the floats nearest to them), whose
    exact values satisfy [5 * scaled_viscosity < bulk_viscosity], the
    computed diffusion coefficient is 0 and the call returns, having written
    into both accumulators. *)
Lemma monaghan_shear_forces_rounding_counterexample :
  let visc_i := 0x1.999999999999ap-5%float in
  let visc_j := 0x1.999999999999ap-4%float in
  let bulk_visc := 0x1.c71c71c71c71dp-4%float in
  let a := Qmake 7205759403792794 (2 ^ 57) in
  let b := Qmake 7205759403792794 (2 ^ 56) in
  let c := Qmake 8006399337547549 (2 ^ 56) in
  (float_value visc_i = Some a /\ float_value visc_j = Some b /\
   float_value bulk_visc = Some c) /\
  (0 < a /\ 0 < b /\ 0 < c /\
   5 * (2 * a * b / (3 * (a + b))) < 2 * c * c / (c + c))%Q /\
  Monaghan.shear_forces 1%float 1%float (mkVec3 1 0 0)%float
    (mkVec3 0 0 0)%float 1%float visc_i visc_j bulk_visc bulk_visc 1%float
    1%float 1%float (mkVec3 1 0 0)%float
    (mkOut (Some (mkVec3 0 0 0)%float) (Some (mkVec3 0 0 0)%float))
  = (Returned tt,
     mkOut (Some (mkVec3 0x1.1111111111111p-3 0 0)%float)
           (Some (mkVec3 (-0x1.1111111111111p-3) 0 0)%float)).
Proof.
  cbv zeta. split; [ | split ].
  - repeat split; vm_compute; reflexivity.
  - repeat split; vm_compute; reflexivity.
  - vm_compute. reflexivity.
Qed.

(** ** Accumulation, step by step *)

Section Steps.
Context {T : Type} {S : Scalar T}.








End Steps.





